(** * useCrm: the customer-list controller of the CRM screen

    A shallow embedding of [src/app/(main)/crm/hooks/useCrm.ts].

    The hook is a set of React state cells, two effects and a handful of
    event handlers, several of which are [async].  The embedding keeps
    that shape:

    - the state cells are the record [Crm];
    - a handler is an action in the monad [Act] (state, a log of the
      observable calls it makes, and JavaScript's [throw]);
    - an [async] handler is cut at its [await]: the part before it
      registers a [Continuation] in the list of requests in flight, and
      the part after it ([..._resume]) runs when the event loop delivers
      the reply, on whatever the state is by then;
    - a handler reads the state cells through the closure of the render
      it was created in (the argument [r], the render snapshot) and
      writes them through the setters, which act on the live state;
    - after every event React renders and runs the effects whose
      dependencies changed ([commit]).

    One event is one synchronous run of the event loop: React batches
    the setter calls made in it and commits a single render, effects
    included, before the next event is handled.  An effect runs when a
    value of its dependency list differs from the one of the previous
    render.  The two [await]s of a request ([fetch], then
    [response.json()]) have no code between them, and are one event. *)

From Stdlib Require Import ZArith List String Ascii Bool Lia.
Import ListNotations.
Open Scope string_scope.
Open Scope Z_scope.

(* ================================================================== *)
(** * Data model *)
(* ================================================================== *)

(** Modelled from the spec: [CrmCustomer] is imported from [../types],
    which is not among the sources.  The spec (section 3) gives it a
    stable identifier, a display name, a membership flag and, once
    granted, a membership barcode.  The hook reads [_id] and
    [membershipBarcode] only. *)
Record CrmCustomer := {
  _id : string;
  name : string;
  isMembership : bool;
  membershipBarcode : option string
}.

(** Modelled from the spec: [PaginationInfo] is imported from
    [../types]; section 3 of the spec lists its three integer fields. *)
Record PaginationInfo := {
  currentPage : Z;
  totalPages : Z;
  totalCustomers : Z
}.

(** The twelve [useState] cells, lines 11-26.  [panelKey] is a
    JavaScript number that starts at 0 and only ever has 1 added to it;
    such arithmetic is exact far beyond any count of user actions, so it
    is an integer here. *)
Record Crm := {
  customers : list CrmCustomer;
  pagination : PaginationInfo;
  isLoading : bool;
  pageError : option string;
  searchTerm : string;
  debouncedSearchTerm : string;
  selectedCustomer : option CrmCustomer;
  isDetailPanelOpen : bool;
  isAddEditModalOpen : bool;
  editingCustomer : option CrmCustomer;
  panelKey : Z;
  isMembershipUpdating : bool
}.

(** The HTTP calls the hook makes (spec, section 6). *)
Inductive Request :=
| GET_customers (page limit : Z) (search : string)
| GET_customer (customerId : string)
| DELETE_customer (customerId : string)
| POST_toggle_membership (customerId : string) (grant : bool) (barcode : string).

Module Api.
(** The JSON body of a reply, as the handlers read it.  A handler only
    reads the fields its endpoint sends: [customers] and [pagination]
    for the list, [customer] for the detail and membership calls. *)
Record Body := {
  success : bool;
  message : option string;
  customer : option CrmCustomer;
  customers : list CrmCustomer;
  pagination : PaginationInfo
}.
End Api.

(** What [await fetch(...)] followed by [await response.json()] can
    deliver: either of the two promises rejects (network failure, a body
    that is not JSON), or there is a status and a decoded body. *)
Inductive Reply :=
| Rejected (message : string)
| Json (ok : bool) (data : Api.Body).

(** What the outside world observes of one event. *)
Inductive Effect :=
| Toast_success (text : string)
| Toast_error (text : string)
| Confirm (question : string)
| Fetch (req : Request).

(** The rest of an [async] handler, parked at its [await], with what its
    closure holds and its remainder uses. *)
Inductive Continuation :=
| K_fetchCustomers
| K_handleViewCustomerDetails
| K_handleDeleteCustomer (render : Crm)
| K_handleGrantMembership (customerId : string).

(** A timer started by [setTimeout]: its delay in milliseconds and the
    [searchTerm] its callback closed over. *)
Record Timer := {
  delay : Z;
  captured : string
}.

(** The controller at run time: the state cells, the pending debounce
    timer if there is one, and the requests in flight, oldest first. *)
Record World := {
  crm : Crm;
  timer : option Timer;
  inflight : list Continuation
}.

(* ================================================================== *)
(** * Setters *)
(* ================================================================== *)

(** React's setters take a value or an updater [prev => next]; here all
    take an updater, and [fun _ => v] is the value form. *)

Definition upd_customers (f : list CrmCustomer -> list CrmCustomer) (s : Crm) : Crm :=
  {| customers := f (customers s); pagination := pagination s;
     isLoading := isLoading s; pageError := pageError s;
     searchTerm := searchTerm s; debouncedSearchTerm := debouncedSearchTerm s;
     selectedCustomer := selectedCustomer s; isDetailPanelOpen := isDetailPanelOpen s;
     isAddEditModalOpen := isAddEditModalOpen s; editingCustomer := editingCustomer s;
     panelKey := panelKey s; isMembershipUpdating := isMembershipUpdating s |}.

Definition upd_pagination (f : PaginationInfo -> PaginationInfo) (s : Crm) : Crm :=
  {| customers := customers s; pagination := f (pagination s);
     isLoading := isLoading s; pageError := pageError s;
     searchTerm := searchTerm s; debouncedSearchTerm := debouncedSearchTerm s;
     selectedCustomer := selectedCustomer s; isDetailPanelOpen := isDetailPanelOpen s;
     isAddEditModalOpen := isAddEditModalOpen s; editingCustomer := editingCustomer s;
     panelKey := panelKey s; isMembershipUpdating := isMembershipUpdating s |}.

Definition upd_isLoading (f : bool -> bool) (s : Crm) : Crm :=
  {| customers := customers s; pagination := pagination s;
     isLoading := f (isLoading s); pageError := pageError s;
     searchTerm := searchTerm s; debouncedSearchTerm := debouncedSearchTerm s;
     selectedCustomer := selectedCustomer s; isDetailPanelOpen := isDetailPanelOpen s;
     isAddEditModalOpen := isAddEditModalOpen s; editingCustomer := editingCustomer s;
     panelKey := panelKey s; isMembershipUpdating := isMembershipUpdating s |}.

Definition upd_pageError (f : option string -> option string) (s : Crm) : Crm :=
  {| customers := customers s; pagination := pagination s;
     isLoading := isLoading s; pageError := f (pageError s);
     searchTerm := searchTerm s; debouncedSearchTerm := debouncedSearchTerm s;
     selectedCustomer := selectedCustomer s; isDetailPanelOpen := isDetailPanelOpen s;
     isAddEditModalOpen := isAddEditModalOpen s; editingCustomer := editingCustomer s;
     panelKey := panelKey s; isMembershipUpdating := isMembershipUpdating s |}.

Definition upd_searchTerm (f : string -> string) (s : Crm) : Crm :=
  {| customers := customers s; pagination := pagination s;
     isLoading := isLoading s; pageError := pageError s;
     searchTerm := f (searchTerm s); debouncedSearchTerm := debouncedSearchTerm s;
     selectedCustomer := selectedCustomer s; isDetailPanelOpen := isDetailPanelOpen s;
     isAddEditModalOpen := isAddEditModalOpen s; editingCustomer := editingCustomer s;
     panelKey := panelKey s; isMembershipUpdating := isMembershipUpdating s |}.

Definition upd_debouncedSearchTerm (f : string -> string) (s : Crm) : Crm :=
  {| customers := customers s; pagination := pagination s;
     isLoading := isLoading s; pageError := pageError s;
     searchTerm := searchTerm s; debouncedSearchTerm := f (debouncedSearchTerm s);
     selectedCustomer := selectedCustomer s; isDetailPanelOpen := isDetailPanelOpen s;
     isAddEditModalOpen := isAddEditModalOpen s; editingCustomer := editingCustomer s;
     panelKey := panelKey s; isMembershipUpdating := isMembershipUpdating s |}.

Definition upd_selectedCustomer (f : option CrmCustomer -> option CrmCustomer) (s : Crm) : Crm :=
  {| customers := customers s; pagination := pagination s;
     isLoading := isLoading s; pageError := pageError s;
     searchTerm := searchTerm s; debouncedSearchTerm := debouncedSearchTerm s;
     selectedCustomer := f (selectedCustomer s); isDetailPanelOpen := isDetailPanelOpen s;
     isAddEditModalOpen := isAddEditModalOpen s; editingCustomer := editingCustomer s;
     panelKey := panelKey s; isMembershipUpdating := isMembershipUpdating s |}.

Definition upd_isDetailPanelOpen (f : bool -> bool) (s : Crm) : Crm :=
  {| customers := customers s; pagination := pagination s;
     isLoading := isLoading s; pageError := pageError s;
     searchTerm := searchTerm s; debouncedSearchTerm := debouncedSearchTerm s;
     selectedCustomer := selectedCustomer s; isDetailPanelOpen := f (isDetailPanelOpen s);
     isAddEditModalOpen := isAddEditModalOpen s; editingCustomer := editingCustomer s;
     panelKey := panelKey s; isMembershipUpdating := isMembershipUpdating s |}.

Definition upd_isAddEditModalOpen (f : bool -> bool) (s : Crm) : Crm :=
  {| customers := customers s; pagination := pagination s;
     isLoading := isLoading s; pageError := pageError s;
     searchTerm := searchTerm s; debouncedSearchTerm := debouncedSearchTerm s;
     selectedCustomer := selectedCustomer s; isDetailPanelOpen := isDetailPanelOpen s;
     isAddEditModalOpen := f (isAddEditModalOpen s); editingCustomer := editingCustomer s;
     panelKey := panelKey s; isMembershipUpdating := isMembershipUpdating s |}.

Definition upd_editingCustomer (f : option CrmCustomer -> option CrmCustomer) (s : Crm) : Crm :=
  {| customers := customers s; pagination := pagination s;
     isLoading := isLoading s; pageError := pageError s;
     searchTerm := searchTerm s; debouncedSearchTerm := debouncedSearchTerm s;
     selectedCustomer := selectedCustomer s; isDetailPanelOpen := isDetailPanelOpen s;
     isAddEditModalOpen := isAddEditModalOpen s; editingCustomer := f (editingCustomer s);
     panelKey := panelKey s; isMembershipUpdating := isMembershipUpdating s |}.

Definition upd_panelKey (f : Z -> Z) (s : Crm) : Crm :=
  {| customers := customers s; pagination := pagination s;
     isLoading := isLoading s; pageError := pageError s;
     searchTerm := searchTerm s; debouncedSearchTerm := debouncedSearchTerm s;
     selectedCustomer := selectedCustomer s; isDetailPanelOpen := isDetailPanelOpen s;
     isAddEditModalOpen := isAddEditModalOpen s; editingCustomer := editingCustomer s;
     panelKey := f (panelKey s); isMembershipUpdating := isMembershipUpdating s |}.

Definition upd_isMembershipUpdating (f : bool -> bool) (s : Crm) : Crm :=
  {| customers := customers s; pagination := pagination s;
     isLoading := isLoading s; pageError := pageError s;
     searchTerm := searchTerm s; debouncedSearchTerm := debouncedSearchTerm s;
     selectedCustomer := selectedCustomer s; isDetailPanelOpen := isDetailPanelOpen s;
     isAddEditModalOpen := isAddEditModalOpen s; editingCustomer := editingCustomer s;
     panelKey := panelKey s; isMembershipUpdating := f (isMembershipUpdating s) |}.

(** [{ ...prev, currentPage: n }] *)
Definition with_currentPage (n : Z) (prev : PaginationInfo) : PaginationInfo :=
  {| currentPage := n; totalPages := totalPages prev;
     totalCustomers := totalCustomers prev |}.

Definition upd_crm (f : Crm -> Crm) (w : World) : World :=
  {| crm := f (crm w); timer := timer w; inflight := inflight w |}.

Definition upd_timer (t : option Timer) (w : World) : World :=
  {| crm := crm w; timer := t; inflight := inflight w |}.

Definition upd_inflight (f : list Continuation -> list Continuation) (w : World) : World :=
  {| crm := crm w; timer := timer w; inflight := f (inflight w) |}.

(* ================================================================== *)
(** * The handler monad *)
(* ================================================================== *)

(** How a block of JavaScript ends: normally with a value, or by
    [throw new Error(message)]. *)
Inductive Completion (A : Type) :=
| Normal (value : A)
| Throw (message : string).

Arguments Normal {A} value.
Arguments Throw {A} message.

(** A piece of handler code: it transforms the world, logs the calls it
    makes to the outside, and completes. *)
Definition Act (A : Type) : Type := World -> World * list Effect * Completion A.

Definition ret {A} (a : A) : Act A := fun w => (w, [], Normal a).

Definition bind {A B} (m : Act A) (k : A -> Act B) : Act B :=
  fun w =>
    match m w with
    | (w1, out1, Normal a) =>
        match k a w1 with
        | (w2, out2, c) => (w2, (out1 ++ out2)%list, c)
        end
    | (w1, out1, Throw e) => (w1, out1, Throw e)
    end.

Notation "x <- m ;; k" := (bind m (fun x => k))
  (at level 61, m at next level, right associativity).
Notation "m ;; k" := (bind m (fun _ => k))
  (at level 61, right associativity).

Definition throw {A} (message : string) : Act A := fun w => (w, [], Throw message).

(** [try { body } catch (err) { handler(err.message) }] *)
Definition try_catch {A} (body : Act A) (handler : string -> Act A) : Act A :=
  fun w =>
    match body w with
    | (w1, out1, Normal a) => (w1, out1, Normal a)
    | (w1, out1, Throw e) =>
        match handler e w1 with
        | (w2, out2, c) => (w2, (out1 ++ out2)%list, c)
        end
    end.

(** [try { body } finally { cleanup }]: the cleanup runs either way, and
    the completion of the body stands unless the cleanup itself throws. *)
Definition try_finally {A} (body : Act A) (cleanup : Act unit) : Act A :=
  fun w =>
    match body w with
    | (w1, out1, c) =>
        match cleanup w1 with
        | (w2, out2, Normal _) => (w2, (out1 ++ out2)%list, c)
        | (w2, out2, Throw e) => (w2, (out1 ++ out2)%list, Throw e)
        end
    end.

Definition modify (f : Crm -> Crm) : Act unit := fun w => (upd_crm f w, [], Normal tt).

Definition emit (e : Effect) : Act unit := fun w => (w, [e], Normal tt).

(** The setters returned by [useState]. *)
Definition setCustomers f := modify (upd_customers f).
Definition setPagination f := modify (upd_pagination f).
Definition setIsLoading (b : bool) := modify (upd_isLoading (fun _ => b)).
Definition setPageError (e : option string) := modify (upd_pageError (fun _ => e)).
Definition setSearchTerm (v : string) := modify (upd_searchTerm (fun _ => v)).
Definition setDebouncedSearchTerm (v : string) := modify (upd_debouncedSearchTerm (fun _ => v)).
Definition setSelectedCustomer (c : option CrmCustomer) := modify (upd_selectedCustomer (fun _ => c)).
Definition setIsDetailPanelOpen (b : bool) := modify (upd_isDetailPanelOpen (fun _ => b)).
Definition setIsAddEditModalOpen (b : bool) := modify (upd_isAddEditModalOpen (fun _ => b)).
Definition setEditingCustomer (c : option CrmCustomer) := modify (upd_editingCustomer (fun _ => c)).
Definition setPanelKey f := modify (upd_panelKey f).
Definition setIsMembershipUpdating (b : bool) := modify (upd_isMembershipUpdating (fun _ => b)).

(** [toast.success], [toast.error] and the browser's [confirm]. *)
Definition toast_success (text : string) : Act unit := emit (Toast_success text).
Definition toast_error (text : string) : Act unit := emit (Toast_error text).
Definition confirm (question : string) (answer : bool) : Act bool :=
  emit (Confirm question) ;; ret answer.

(** [await fetch(req)]: the request leaves, and the rest of the handler
    is parked until the reply comes. *)
Definition fetch (req : Request) (k : Continuation) : Act unit :=
  fun w => (upd_inflight (fun l => l ++ [k])%list w, [Fetch req], Normal tt).

(** The handler wakes up with the reply: a rejected promise is thrown at
    the [await], otherwise the response and its decoded body come back. *)
Definition awaited (reply : Reply) : Act (bool * Api.Body) :=
  match reply with
  | Rejected e => throw e
  | Json ok data => ret (ok, data)
  end.

(** [setTimeout] and [clearTimeout] of the one debounce timer, and what
    the event loop does to the timer when it fires: it is spent. *)
Definition setTimeout (term : string) (ms : Z) : Act unit :=
  fun w => (upd_timer (Some {| delay := ms; captured := term |}) w, [], Normal tt).
Definition clearTimeout : Act unit :=
  fun w => (upd_timer None w, [], Normal tt).
Definition expire : Act unit :=
  fun w => (upd_timer None w, [], Normal tt).

(** JavaScript truthiness of a string, and [message || fallback] where
    [message] may be missing: the fallback is taken for a missing and
    for an empty message alike. *)
Definition truthy (s : string) : bool := negb (s =? "")%string.

Definition or_default (m : option string) (fallback : string) : string :=
  match m with
  | Some s => if truthy s then s else fallback
  | None => fallback
  end.

Notation "m ||| d" := (or_default m d) (at level 50, left associativity).

Definition is_some {A} (o : option A) : bool :=
  match o with Some _ => true | None => false end.

(** A template literal prints a missing value as [undefined]. *)
Definition interpolate (o : option string) : string :=
  match o with Some s => s | None => "undefined" end.

(* ================================================================== *)
(** * The hook *)
(* ================================================================== *)

(** Lines 12-26: the initial values of the state cells. *)
Definition initial : Crm :=
  {| customers := [];
     pagination := {| currentPage := 1; totalPages := 1; totalCustomers := 0 |};
     isLoading := true; pageError := None;
     searchTerm := ""; debouncedSearchTerm := "";
     selectedCustomer := None; isDetailPanelOpen := false;
     isAddEditModalOpen := false; editingCustomer := None;
     panelKey := 0; isMembershipUpdating := false |}.

(** Lines 30-33: the callback given to [setTimeout]; [term] is the
    [searchTerm] of the render that started the timer. *)
Definition debounce_callback (term : string) : Act unit :=
  setDebouncedSearchTerm term ;;
  setPagination (fun prev => with_currentPage 1 prev).

(** Lines 29-35: the debounce effect of render [r], run when
    [searchTerm] changed: the cleanup of the previous run clears its
    timer, then a new one is started. *)
Definition useEffect_debounce (r : Crm) : Act unit :=
  clearTimeout ;;
  setTimeout (searchTerm r) 500.

(** Lines 37-51, up to the [await].  [useCallback] keeps the function of
    the render in which [debouncedSearchTerm] last changed, so the term
    in the URL is that of the render [r] the caller belongs to. *)
Definition fetchCustomers (r : Crm) (page : Z) : Act unit :=
  setIsLoading true ;;
  setPageError None ;;
  fetch (GET_customers page 10 (debouncedSearchTerm r)) K_fetchCustomers.

(** Lines 41-50, from the [await] on. *)
Definition fetchCustomers_resume (reply : Reply) : Act unit :=
  try_finally
    (try_catch
       (resp <- awaited reply ;;
        let (ok, data) := resp in
        if negb ok || negb (Api.success data)
        then throw (Api.message data ||| "Failed to fetch customers")
        else
          setCustomers (fun _ => Api.customers data) ;;
          setPagination (fun _ => Api.pagination data))
       (fun err => setPageError (Some err)))
    (setIsLoading false).

(** Line 55: the condition under which the fetch effect fetches. *)
Definition fetchTrigger (r : Crm) : bool :=
  truthy (debouncedSearchTerm r) || (searchTerm r =? "")%string.

(** Lines 53-58: the body of the fetch effect of render [r]. *)
Definition useEffect_fetch (r : Crm) : Act unit :=
  if fetchTrigger r
  then fetchCustomers r (currentPage (pagination r))
  else ret tt.

(** Lines 60-62. *)
Definition refreshData (r : Crm) : Act unit :=
  fetchCustomers r (currentPage (pagination r)).

(** Lines 64-76, from the [await] on (before it there is only the
    request, which the caller below sends). *)
Definition fetchCustomerDetails_resume (reply : Reply) : Act (option CrmCustomer) :=
  try_catch
    (resp <- awaited reply ;;
     let (ok, apiResponse) := resp in
     if negb ok || negb (Api.success apiResponse)
     then throw (Api.message apiResponse ||| "Failed to fetch details")
     else ret (Api.customer apiResponse))
    (fun error =>
       toast_error ("Error loading details: " ++ error) ;;
       ret None).

(** Lines 78-81, up to the [await]; [answer] is what the user clicks in
    the confirmation dialog. *)
Definition handleDeleteCustomer (r : Crm) (customerId customerName : string)
    (answer : bool) : Act unit :=
  confirmed <- confirm ("Are you sure you want to deactivate " ++ customerName
                        ++ "? Their history will be saved.") answer ;;
  if negb confirmed then ret tt
  else fetch (DELETE_customer customerId) (K_handleDeleteCustomer r).

(** Lines 81-88, from the [await] on.  [refreshData] is the one of the
    render [r] in which the handler was called. *)
Definition handleDeleteCustomer_resume (r : Crm) (reply : Reply) : Act unit :=
  try_catch
    (resp <- awaited reply ;;
     let (ok, result) := resp in
     if negb ok || negb (Api.success result)
     then throw (Api.message result ||| "Failed to deactivate customer.")
     else
       toast_success "Customer deactivated successfully." ;;
       refreshData r)
    (fun err => toast_error err).

(** Line 94: [selectedCustomer?._id === customer._id]. *)
Definition same_id (selected : option CrmCustomer) (customer : CrmCustomer) : bool :=
  match selected with
  | Some s => (_id s =? _id customer)%string
  | None => false
  end.

(** Lines 92-103, up to the [await]. *)
Definition handleViewCustomerDetails (r : Crm) (customer : CrmCustomer) : Act unit :=
  if isDetailPanelOpen r && same_id (selectedCustomer r) customer
  then setIsDetailPanelOpen false
  else
    setPanelKey (fun prevKey => prevKey + 1) ;;
    setIsDetailPanelOpen true ;;
    setSelectedCustomer None ;;
    fetch (GET_customer (_id customer)) K_handleViewCustomerDetails.

(** Lines 103-104, from the [await] on. *)
Definition handleViewCustomerDetails_resume (reply : Reply) : Act unit :=
  detailedData <- fetchCustomerDetails_resume reply ;;
  setSelectedCustomer detailedData.

(** Lines 107-109. *)
Definition handleOpenAddModal : Act unit :=
  setEditingCustomer None ;; setIsAddEditModalOpen true.
Definition handleOpenEditModal (customer : CrmCustomer) : Act unit :=
  setEditingCustomer (Some customer) ;; setIsAddEditModalOpen true.
Definition handleCloseAddEditModal : Act unit :=
  setIsAddEditModalOpen false ;; setEditingCustomer None.

(** Lines 112-123, up to the [await]. *)
Definition handleGrantMembership (customerId barcode : string) : Act unit :=
  setIsMembershipUpdating true ;;
  fetch (POST_toggle_membership customerId true barcode)
        (K_handleGrantMembership customerId).

(** Lines 125-151, from the [await] on.  The response's [ok] is not
    looked at.  Past the test of line 126 [result.customer] is there;
    reading a field of a missing one would be a [TypeError]. *)
Definition handleGrantMembership_resume (customerId : string) (reply : Reply) : Act unit :=
  try_finally
    (try_catch
       (resp <- awaited reply ;;
        let (_, result) := resp in
        if negb (Api.success result) || negb (is_some (Api.customer result))
        then throw (Api.message result ||| "Failed to grant membership.")
        else
          match Api.customer result with
          | None => throw "Cannot read properties of undefined"
          | Some freshCustomerData =>
              toast_success ("Membership granted successfully with barcode: "
                             ++ interpolate (membershipBarcode freshCustomerData)) ;;
              setSelectedCustomer (Some freshCustomerData) ;;
              setCustomers (fun prev =>
                map (fun c => if (_id c =? customerId)%string
                              then freshCustomerData else c) prev) ;;
              setPanelKey (fun prevKey => prevKey + 1)
          end)
       (fun err => toast_error err))
    (setIsMembershipUpdating false).

(** Lines 154-158. *)
Definition goToPage (r : Crm) (pageNumber : Z) : Act unit :=
  if (1 <=? pageNumber) && (pageNumber <=? totalPages (pagination r))
  then setPagination (fun prev => with_currentPage pageNumber prev)
  else ret tt.

(* ================================================================== *)
(** * Events, renders and the event loop *)
(* ================================================================== *)

(** What can happen to a mounted controller: the UI calls one of the
    functions the hook returns (lines 160-166), the debounce timer
    fires, or the reply to the [k]-th request in flight arrives. *)
Inductive Event :=
| SetSearchTerm (value : string)
| Timeout
| GoToPage (pageNumber : Z)
| RefreshData
| HandleViewCustomerDetails (customer : CrmCustomer)
| SetIsDetailPanelOpen (open : bool)
| HandleDeleteCustomer (customerId customerName : string) (answer : bool)
| HandleOpenAddModal
| HandleOpenEditModal (customer : CrmCustomer)
| HandleCloseAddEditModal
| HandleGrantMembership (customerId barcode : string)
| Settle (k : nat) (reply : Reply).

Fixpoint remove_nth {A} (k : nat) (l : list A) : list A :=
  match l, k with
  | [], _ => []
  | _ :: l', O => l'
  | x :: l', S k' => x :: remove_nth k' l'
  end.

(** The parked handler that a reply wakes up. *)
Definition resume (k : Continuation) (reply : Reply) : Act unit :=
  match k with
  | K_fetchCustomers => fetchCustomers_resume reply
  | K_handleViewCustomerDetails => handleViewCustomerDetails_resume reply
  | K_handleDeleteCustomer r => handleDeleteCustomer_resume r reply
  | K_handleGrantMembership customerId => handleGrantMembership_resume customerId reply
  end.

(** The code that an event runs.  The handlers are those of the latest
    render, so their snapshot is the state at the start of the event. *)
Definition handle (e : Event) : Act unit :=
  fun w =>
    let r := crm w in
    match e with
    | SetSearchTerm value => setSearchTerm value w
    | Timeout =>
        match timer w with
        | Some t => (expire ;; debounce_callback (captured t)) w
        | None => ret tt w
        end
    | GoToPage pageNumber => goToPage r pageNumber w
    | RefreshData => refreshData r w
    | HandleViewCustomerDetails customer => handleViewCustomerDetails r customer w
    | SetIsDetailPanelOpen open => setIsDetailPanelOpen open w
    | HandleDeleteCustomer customerId customerName answer =>
        handleDeleteCustomer r customerId customerName answer w
    | HandleOpenAddModal => handleOpenAddModal w
    | HandleOpenEditModal customer => handleOpenEditModal customer w
    | HandleCloseAddEditModal => handleCloseAddEditModal w
    | HandleGrantMembership customerId barcode =>
        handleGrantMembership customerId barcode w
    | Settle k reply =>
        match nth_error (inflight w) k with
        | Some kont => resume kont reply (upd_inflight (remove_nth k) w)
        | None => ret tt w
        end
    end.

(** Line 35: the dependency list [searchTerm] of the debounce effect. *)
Definition debounce_deps_changed (prev r : Crm) : bool :=
  negb (searchTerm prev =? searchTerm r)%string.

(** Line 58: the dependency list of the fetch effect.  [fetchCustomers]
    is a new function exactly when [debouncedSearchTerm] changed
    (line 51), so it adds nothing to the other two. *)
Definition fetch_deps_changed (prev r : Crm) : bool :=
  negb ((currentPage (pagination prev) =? currentPage (pagination r))
        && (debouncedSearchTerm prev =? debouncedSearchTerm r)%string).

(** The render that follows an event: [prev] is the previous render, the
    new one sees the state the handler left, and the effects whose
    dependencies differ between the two run in the order of the
    source.  The setters that [fetchCustomers] calls touch no
    dependency, so the render they cause runs no effect. *)
Definition commit (prev : Crm) : Act unit :=
  fun w =>
    let r := crm w in
    ((if debounce_deps_changed prev r then useEffect_debounce r else ret tt) ;;
     (if fetch_deps_changed prev r then useEffect_fetch r else ret tt)) w.

(** One turn of the event loop. *)
Definition step (w : World) (e : Event) : World * list Effect :=
  match (handle e ;; commit (crm w)) w with
  | (w', out, _) => (w', out)
  end.

(** The first render: every effect runs. *)
Definition mount : World * list Effect :=
  match (useEffect_debounce initial ;; useEffect_fetch initial)
          {| crm := initial; timer := None; inflight := [] |} with
  | (w, out, _) => (w, out)
  end.

(** A run of events from a given world, with everything observed. *)
Fixpoint run (w : World) (es : list Event) : World * list Effect :=
  match es with
  | [] => (w, [])
  | e :: es' =>
      let (w1, out1) := step w e in
      let (w2, out2) := run w1 es' in
      (w2, (out1 ++ out2)%list)
  end.

(** The worlds a mounted controller can be in. *)
Inductive reachable : World -> Prop :=
| reachable_mount : reachable (fst mount)
| reachable_step w e : reachable w -> reachable (fst (step w e)).

(* ================================================================== *)
(** * Properties and sample data used in the statements *)
(* ================================================================== *)

(** The reply handlers' notion of a reply that is not a success, for
    the three operations that look at the HTTP status (lines 43, 68,
    83), and the message they raise for it. *)
Definition failed (reply : Reply) : Prop :=
  match reply with
  | Rejected _ => True
  | Json ok data => ok = false \/ Api.success data = false
  end.

Definition failure_message (fallback : string) (reply : Reply) : string :=
  match reply with
  | Rejected e => e
  | Json _ data => or_default (Api.message data) fallback
  end.

(** The panel is open and shows [customer] (line 94). *)
Definition shows (r : Crm) (customer : CrmCustomer) : Prop :=
  isDetailPanelOpen r = true /\
  exists s, selectedCustomer r = Some s /\ _id s = _id customer.

(** The two events that force the panel to remount (lines 98, 145). *)
Definition remounts (w : World) (e : Event) : Prop :=
  match e with
  | HandleViewCustomerDetails customer => ~ shows (crm w) customer
  | Settle k (Json _ result) =>
      (exists customerId,
          nth_error (inflight w) k = Some (K_handleGrantMembership customerId)) /\
      Api.success result = true /\ Api.customer result <> None
  | _ => False
  end.

(** The same as a test. *)
Definition remountsb (w : World) (e : Event) : bool :=
  match e with
  | HandleViewCustomerDetails customer =>
      negb (isDetailPanelOpen (crm w) && same_id (selectedCustomer (crm w)) customer)
  | Settle k (Json _ result) =>
      match nth_error (inflight w) k with
      | Some (K_handleGrantMembership _) =>
          Api.success result && is_some (Api.customer result)
      | _ => false
      end
  | _ => false
  end.

(** Line 79: the question put to the user before a deactivation. *)
Definition deactivate_question (customerName : string) : string :=
  "Are you sure you want to deactivate " ++ customerName
  ++ "? Their history will be saved.".


(** An event that is the completion of a list fetch. *)
Definition settles_list_fetch (w : World) (e : Event) : Prop :=
  match e with
  | Settle k _ => nth_error (inflight w) k = Some K_fetchCustomers
  | _ => False
  end.

(** A run of events none of which is the completion of a list fetch. *)
Fixpoint undisturbed (w : World) (es : list Event) : Prop :=
  match es with
  | [] => True
  | e :: es' => ~ settles_list_fetch w e /\ undisturbed (fst (step w e)) es'
  end.

(** A list request among the calls observed. *)
Definition is_list_fetch (x : Effect) : bool :=
  match x with
  | Fetch (GET_customers _ _ _) => true
  | _ => false
  end.

(** The three modal handlers (lines 107-109). *)
Definition modal_event (e : Event) : Prop :=
  match e with
  | HandleOpenAddModal | HandleOpenEditModal _ | HandleCloseAddEditModal => True
  | _ => False
  end.

(** A burst of keystrokes in the search box. *)
Definition keystrokes (values : list string) : list Event :=
  map SetSearchTerm values.

(** An HTTP request among the calls observed. *)
Definition is_request (x : Effect) : bool :=
  match x with
  | Fetch _ => true
  | _ => false
  end.

(** The reply to a deactivation (its handler refreshes from the render
    it was called in). *)
Definition settles_deactivation (w : World) (e : Event) : Prop :=
  match e with
  | Settle k _ => exists r, nth_error (inflight w) k = Some (K_handleDeleteCustomer r)
  | _ => False
  end.

(** The page is one of the pages there are. *)
Definition page_in_range (p : PaginationInfo) : Prop :=
  1 <= currentPage p <= totalPages p.

(** A reply to a membership grant that line 126 rejects, or that never
    came. *)
Definition grant_failed (reply : Reply) : Prop :=
  match reply with
  | Rejected _ => True
  | Json _ result => Api.success result = false \/ Api.customer result = None
  end.

Module Sample.

Definition alice : CrmCustomer :=
  {| _id := "a"; name := "Alice"; isMembership := false;
     membershipBarcode := None |}.

Definition bob : CrmCustomer :=
  {| _id := "b"; name := "Bob"; isMembership := false;
     membershipBarcode := None |}.

Definition alice_member : CrmCustomer :=
  {| _id := "a"; name := "Alice"; isMembership := true;
     membershipBarcode := Some "BC123" |}.

Definition no_pages : PaginationInfo :=
  {| currentPage := 0; totalPages := 0; totalCustomers := 0 |}.

(** The list reply of the scenario in section 8 of the spec. *)
Definition list_ok : Api.Body :=
  {| Api.success := true; Api.message := None; Api.customer := None;
     Api.customers := [alice];
     Api.pagination :=
       {| currentPage := 1; totalPages := 3; totalCustomers := 21 |} |}.

(** A reply that reports a failure without a message. *)
Definition refused : Api.Body :=
  {| Api.success := false; Api.message := None; Api.customer := None;
     Api.customers := []; Api.pagination := no_pages |}.

(** A bare [{success: true}]. *)
Definition done : Api.Body :=
  {| Api.success := true; Api.message := None; Api.customer := None;
     Api.customers := []; Api.pagination := no_pages |}.

(** The membership reply of the scenario in section 8 of the spec. *)
Definition granted : Api.Body :=
  {| Api.success := true; Api.message := None;
     Api.customer := Some alice_member;
     Api.customers := []; Api.pagination := no_pages |}.

(** After the first list has loaded: one row, page 1 of 3. *)
Definition loaded : World :=
  fst (step (fst mount) (Settle 0 (Json true list_ok))).

(** The user has typed a letter and the debounce timer has fired
    while the first list request is still in flight. *)
Definition overlapping : World :=
  fst (run (fst mount) [SetSearchTerm "a"; Timeout]).

(** A list reply with two rows. *)
Definition list_two : Api.Body :=
  {| Api.success := true; Api.message := None; Api.customer := None;
     Api.customers := [alice; bob];
     Api.pagination :=
       {| currentPage := 1; totalPages := 1; totalCustomers := 2 |} |}.

(** The list has loaded with two rows and a membership grant for the
    first is in flight. *)
Definition granting : World :=
  fst (run (fst mount)
         [Settle 0 (Json true list_two); HandleGrantMembership "a" "BC123"]).

(** The user has clicked a row: the panel is open, nothing is selected
    yet and the detail request is in flight (behind the first list
    request). *)
Definition opening : World :=
  fst (step (fst mount) (HandleViewCustomerDetails alice)).

(** The detail reply has come: the panel shows the customer. *)
Definition viewing : World :=
  fst (step opening (Settle 1 (Json true granted))).

(** A deactivation of the first row has been confirmed and its
    request is in flight (behind the first list request). *)
Definition deactivating : World :=
  fst (step (fst mount) (HandleDeleteCustomer "a" "Alice" true)).

End Sample.

(* ================================================================== *)
(** * Proof tools *)
(* ================================================================== *)

(** [text] has [part] somewhere inside it. *)
Definition contains (text part : string) : Prop :=
  exists before after, text = before ++ part ++ after.

(** Unfolds handler code down to the setters, and reads fields of
    updated records. *)
Ltac hook :=
  cbv [handle resume
       fetchCustomers fetchCustomers_resume useEffect_fetch useEffect_debounce
       refreshData fetchCustomerDetails_resume debounce_callback
       handleDeleteCustomer handleDeleteCustomer_resume
       handleViewCustomerDetails handleViewCustomerDetails_resume
       handleOpenAddModal handleOpenEditModal handleCloseAddEditModal
       handleGrantMembership handleGrantMembership_resume goToPage
       bind ret throw try_catch try_finally modify emit awaited fetch
       setCustomers setPagination setIsLoading setPageError setSearchTerm
       setDebouncedSearchTerm setSelectedCustomer setIsDetailPanelOpen
       setIsAddEditModalOpen setEditingCustomer setPanelKey
       setIsMembershipUpdating toast_success toast_error confirm
       setTimeout clearTimeout expire] in *;
  cbn [app negb orb andb is_some fst snd delay captured
       crm timer inflight upd_crm upd_timer upd_inflight
       customers pagination isLoading pageError searchTerm
       debouncedSearchTerm selectedCustomer isDetailPanelOpen
       isAddEditModalOpen editingCustomer panelKey isMembershipUpdating
       upd_customers upd_pagination upd_isLoading upd_pageError
       upd_searchTerm upd_debouncedSearchTerm upd_selectedCustomer
       upd_isDetailPanelOpen upd_isAddEditModalOpen upd_editingCustomer
       upd_panelKey upd_isMembershipUpdating
       currentPage totalPages totalCustomers with_currentPage] in *.

(** Splits on whatever the code under scrutiny branches on: a test, a
    missing value, the reply, the parked handler. *)
Ltac branch_on x :=
  let T := type of x in
  lazymatch T with
  | bool => destruct x eqn:?
  | option _ => destruct x eqn:?
  | Reply => destruct x eqn:?
  | Continuation => destruct x eqn:?
  end.

Ltac branches :=
  repeat (match goal with
          | |- context [match ?x with _ => _ end] => branch_on x
          | |- context [if ?x then _ else _] => branch_on x
          end; hook).

(** A render after which no dependency differs runs no effect. *)
Lemma commit_quiet (prev : Crm) (w : World) :
  searchTerm (crm w) = searchTerm prev ->
  debouncedSearchTerm (crm w) = debouncedSearchTerm prev ->
  currentPage (pagination (crm w)) = currentPage (pagination prev) ->
  commit prev w = (w, [], Normal tt).
Proof.
  intros Hs Hd Hp. unfold commit, debounce_deps_changed, fetch_deps_changed.
  rewrite Hs, Hd, Hp, !String.eqb_refl, Z.eqb_refl. reflexivity.
Qed.

(** An event whose handler touches none of [searchTerm],
    [debouncedSearchTerm] and [currentPage] does what its handler does. *)
Lemma step_quiet (w w1 : World) (e : Event) (out : list Effect) :
  handle e w = (w1, out, Normal tt) ->
  searchTerm (crm w1) = searchTerm (crm w) ->
  debouncedSearchTerm (crm w1) = debouncedSearchTerm (crm w) ->
  currentPage (pagination (crm w1)) = currentPage (pagination (crm w)) ->
  step w e = (w1, out).
Proof.
  intros Hh Hs Hd Hp. unfold step, bind. rewrite Hh.
  rewrite (commit_quiet (crm w) w1 Hs Hd Hp). now rewrite app_nil_r.
Qed.







(* ================================================================== *)
(** * Granting membership *)
(* ================================================================== *)

Section GrantMembership.

Variables (w : World) (k : nat) (customerId : string).
Variables (ok : bool) (result : Api.Body) (fresh : CrmCustomer).

Hypothesis parked : nth_error (inflight w) k = Some (K_handleGrantMembership customerId).
Hypothesis body_success : Api.success result = true.
Hypothesis body_customer : Api.customer result = Some fresh.

Lemma grant_step_eq :
  step w (Settle k (Json ok result)) =
  ({| crm :=
        upd_isMembershipUpdating (fun _ => false)
          (upd_panelKey (fun prevKey => prevKey + 1)
             (upd_customers
                (map (fun c => if (_id c =? customerId)%string then fresh else c))
                (upd_selectedCustomer (fun _ => Some fresh) (crm w))));
      timer := timer w;
      inflight := remove_nth k (inflight w) |},
   [Toast_success ("Membership granted successfully with barcode: "
                   ++ interpolate (membershipBarcode fresh))]).
Proof.
  apply step_quiet; try reflexivity.
  hook. rewrite parked. hook.
  rewrite body_success, body_customer. hook. reflexivity.
Qed.

End GrantMembership.

Lemma contains_suffix (before part : string) : contains (before ++ part) part.
Proof.
  exists before, "". f_equal.
  induction part as [|a part IH]; cbn; [reflexivity | now rewrite <- IH].
Qed.

(** C1.  When the reply to a membership grant for [customerId] has
    [success] true and carries a [customer], the controller sets
    [selectedCustomer] to that entity, puts it in place of every list
    row whose [_id] is [customerId] and leaves the other rows (and the
    length of the list) as they were, adds one to [panelKey], and shows
    one success toast, whose text contains the returned barcode. *)
Theorem grantMembership_success_updates
    (w : World) (k : nat) (customerId : string)
    (ok : bool) (result : Api.Body) (fresh : CrmCustomer) :
  nth_error (inflight w) k = Some (K_handleGrantMembership customerId) ->
  Api.success result = true ->
  Api.customer result = Some fresh ->
  let w' := fst (step w (Settle k (Json ok result))) in
  let out := snd (step w (Settle k (Json ok result))) in
  selectedCustomer (crm w') = Some fresh /\
  List.length (customers (crm w')) = List.length (customers (crm w)) /\
  (forall i c, nth_error (customers (crm w)) i = Some c ->
     (_id c = customerId -> nth_error (customers (crm w')) i = Some fresh) /\
     (_id c <> customerId -> nth_error (customers (crm w')) i = Some c)) /\
  panelKey (crm w') = panelKey (crm w) + 1 /\
  exists text,
    out = [Toast_success text] /\
    forall barcode, membershipBarcode fresh = Some barcode -> contains text barcode.
Proof.
  intros Hk Hs Hc w' out. subst w' out.
  rewrite (grant_step_eq w k customerId ok result fresh Hk Hs Hc). cbn [fst snd crm].
  hook. split; [reflexivity | split; [apply length_map | split; [|split]]].
  - intros i c Hi. rewrite nth_error_map, Hi. cbn [option_map]. split; intros Hid.
    + apply String.eqb_eq in Hid. now rewrite Hid.
    + apply String.eqb_neq in Hid. now rewrite Hid.
  - reflexivity.
  - eexists. split; [reflexivity|].
    intros barcode Hb. rewrite Hb. apply contains_suffix.
Qed.

(** The scenario of section 8 of the spec: the grant for row a is answered
    with barcode BC123. *)
Lemma grantMembership_success_updates_witness :
  let w' := fst (step Sample.granting (Settle 0 (Json true Sample.granted))) in
  selectedCustomer (crm w') = Some Sample.alice_member /\
  customers (crm w') = [Sample.alice_member; Sample.bob] /\
  panelKey (crm w') = 1.
Proof.
  pose proof (grantMembership_success_updates Sample.granting 0 "a"
                true Sample.granted Sample.alice_member
                eq_refl eq_refl eq_refl) as [Hsel [_ [_ [Hkey _]]]].
  cbv zeta. split; [exact Hsel | split; [reflexivity | exact Hkey]].
Defined.

(* ================================================================== *)
(** * The list fetch *)
(* ================================================================== *)

Lemma fetchCustomers_start (r : Crm) (page : Z) (w : World) :
  fetchCustomers r page w =
  (upd_inflight (fun l => l ++ [K_fetchCustomers])%list
     (upd_crm (upd_pageError (fun _ => None))
        (upd_crm (upd_isLoading (fun _ => true)) w)),
   [Fetch (GET_customers page 10 (debouncedSearchTerm r))],
   Normal tt).
Proof. reflexivity. Qed.

Lemma fetchCustomers_resume_failed (reply : Reply) (w : World) :
  failed reply ->
  fetchCustomers_resume reply w =
  (upd_crm (upd_isLoading (fun _ => false))
     (upd_crm (upd_pageError
                 (fun _ => Some (failure_message "Failed to fetch customers" reply))) w),
   [], Normal tt).
Proof.
  destruct reply as [e | ok data]; cbn [failed failure_message]; intros Hf.
  - reflexivity.
  - hook. destruct Hf as [-> | ->]; [|rewrite orb_true_r]; reflexivity.
Qed.

Lemma fetchCustomers_resume_ok (data : Api.Body) (w : World) :
  Api.success data = true ->
  fetchCustomers_resume (Json true data) w =
  (upd_crm (upd_isLoading (fun _ => false))
     (upd_crm (upd_pagination (fun _ => Api.pagination data))
        (upd_crm (upd_customers (fun _ => Api.customers data)) w)),
   [], Normal tt).
Proof. intros Hs. hook. rewrite Hs. reflexivity. Qed.

(** Only the start and the completion of a list fetch touch
    [isLoading] and [pageError]. *)
Lemma loading_frame (w : World) (e : Event) :
  ~ settles_list_fetch w e ->
  forallb (fun x => negb (is_list_fetch x)) (snd (step w e)) = true ->
  isLoading (crm (fst (step w e))) = isLoading (crm w) /\
  pageError (crm (fst (step w e))) = pageError (crm w).
Proof.
  intros Hn.
  destruct e; unfold step, commit, settles_list_fetch in *; hook.
  all: branches.
  all: cbn; try (intros; split; reflexivity); try discriminate; try contradiction.
Qed.

(** Once raised, [isLoading] stays raised until a list fetch completes. *)
Lemma loading_stays (w : World) (e : Event) :
  ~ settles_list_fetch w e ->
  isLoading (crm w) = true ->
  isLoading (crm (fst (step w e))) = true.
Proof.
  intros Hn Hl.
  destruct e; unfold step, commit, settles_list_fetch in *; hook.
  all: branches.
  all: cbn; first [ exact Hl | reflexivity | contradiction ].
Qed.

Lemma loading_stays_run (w : World) (es : list Event) :
  undisturbed w es ->
  isLoading (crm w) = true ->
  isLoading (crm (fst (run w es))) = true.
Proof.
  revert w. induction es as [|e es IH]; intros w Hu Hl; cbn [run].
  - exact Hl.
  - destruct Hu as [Hn Hu]. pose proof (loading_stays w e Hn Hl) as Hl1.
    destruct (step w e) as [w1 out1]. cbn [fst] in *.
    specialize (IH w1 Hu Hl1). destruct (run w1 es). exact IH.
Qed.

Lemma list_fetch_settles (w : World) (k : nat) (reply : Reply) :
  nth_error (inflight w) k = Some K_fetchCustomers ->
  handle (Settle k reply) w =
  fetchCustomers_resume reply (upd_inflight (remove_nth k) w).
Proof. intros Hk. unfold handle. now rewrite Hk. Qed.

Lemma list_fetch_failed_step (w : World) (k : nat) (reply : Reply) :
  nth_error (inflight w) k = Some K_fetchCustomers ->
  failed reply ->
  step w (Settle k reply) =
  (upd_crm (upd_isLoading (fun _ => false))
     (upd_crm (upd_pageError
                 (fun _ => Some (failure_message "Failed to fetch customers" reply)))
        (upd_inflight (remove_nth k) w)),
   []).
Proof.
  intros Hk Hf. apply step_quiet; try reflexivity.
  now rewrite (list_fetch_settles w k reply Hk), fetchCustomers_resume_failed.
Qed.

Lemma reachable_run (w : World) (es : list Event) :
  reachable w -> reachable (fst (run w es)).
Proof.
  revert w. induction es as [|e es IH]; intros w Hw; cbn [run].
  - exact Hw.
  - pose proof (reachable_step w e Hw) as Hstep.
    destruct (step w e) as [w1 out1]. cbn [fst] in Hstep.
    specialize (IH w1 Hstep). destruct (run w1 es). exact IH.
Qed.

(** C2, as stated, fails when two list fetches overlap.  From the
    mounted controller the user types a letter and the debounce timer
    fires, so that two list requests are in flight.  The first is
    answered with a failure: [isLoading] is now false although the
    second request is still in flight.  The second is answered with a
    success: the list is replaced, and [pageError] still holds the
    message of the first. *)
Lemma list_fetch_overlap_counterexample :
  let w1 := Sample.overlapping in
  let w2 := fst (step w1 (Settle 0 (Json false Sample.refused))) in
  let w3 := fst (step w2 (Settle 0 (Json true Sample.list_ok))) in
  reachable w3 /\
  inflight w1 = [K_fetchCustomers; K_fetchCustomers] /\
  (inflight w2 = [K_fetchCustomers] /\ isLoading (crm w2) = false) /\
  (customers (crm w3) = [Sample.alice] /\
   pageError (crm w3) = Some "Failed to fetch customers" /\
   pageError (crm w3) <> None).
Proof.
  cbv zeta. split.
  - do 2 apply reachable_step. apply reachable_run. apply reachable_mount.
  - repeat split; try reflexivity. discriminate.
Qed.

(** C2, amended.  A list fetch sets [isLoading] and clears [pageError]
    when its request leaves, and keeps the list and the pagination.
    From then on only the start or the completion of a list fetch (this
    one or another in flight) changes [isLoading] or [pageError], and
    [isLoading] stays true over any run of events in which no list fetch
    completes.  When the reply comes and the promise was rejected, the
    status is not OK or the body has [success] false, the list and the
    pagination stay as they are, [pageError] becomes the message of the
    server, or 'Failed to fetch customers' when it sent none, and
    [isLoading] is false.  When the reply is a success, the list and the
    pagination
    are those of the reply; [isLoading] is false and [pageError] is as
    it was just before the reply (clear, unless another list fetch
    failed since this one started), unless the new pagination moves
    [currentPage] and so starts the next list fetch. *)
Theorem list_fetch_outcomes :
  (forall (r : Crm) (page : Z) (w : World),
      let w1 := fst (fst (fetchCustomers r page w)) in
      snd (fst (fetchCustomers r page w))
        = [Fetch (GET_customers page 10 (debouncedSearchTerm r))] /\
      isLoading (crm w1) = true /\ pageError (crm w1) = None /\
      customers (crm w1) = customers (crm w) /\
      pagination (crm w1) = pagination (crm w)) /\
  (forall (w : World) (e : Event),
      ~ settles_list_fetch w e ->
      forallb (fun x => negb (is_list_fetch x)) (snd (step w e)) = true ->
      isLoading (crm (fst (step w e))) = isLoading (crm w) /\
      pageError (crm (fst (step w e))) = pageError (crm w)) /\
  (forall (w : World) (es : list Event),
      undisturbed w es ->
      isLoading (crm w) = true ->
      isLoading (crm (fst (run w es))) = true) /\
  (forall (w : World) (k : nat) (reply : Reply),
      nth_error (inflight w) k = Some K_fetchCustomers ->
      failed reply ->
      let w' := fst (step w (Settle k reply)) in
      customers (crm w') = customers (crm w) /\
      pagination (crm w') = pagination (crm w) /\
      pageError (crm w')
        = Some (failure_message "Failed to fetch customers" reply) /\
      isLoading (crm w') = false) /\
  (forall (w : World) (k : nat) (data : Api.Body),
      nth_error (inflight w) k = Some K_fetchCustomers ->
      Api.success data = true ->
      let w' := fst (step w (Settle k (Json true data))) in
      customers (crm w') = Api.customers data /\
      pagination (crm w') = Api.pagination data /\
      (forallb (fun x => negb (is_list_fetch x))
               (snd (step w (Settle k (Json true data)))) = true ->
       isLoading (crm w') = false /\ pageError (crm w') = pageError (crm w))).
Proof.
  split; [|split; [|split; [|split]]].
  - intros r page w. rewrite fetchCustomers_start. cbn. auto.
  - exact loading_frame.
  - exact loading_stays_run.
  - intros w k reply Hk Hf. rewrite (list_fetch_failed_step w k reply Hk Hf).
    cbn. auto.
  - intros w k data Hk Hs. unfold step, bind.
    rewrite (list_fetch_settles w k _ Hk), (fetchCustomers_resume_ok data _ Hs).
    unfold commit. hook. branches; cbn; repeat split; try discriminate.
Qed.

(** The first list request of a mounted controller, answered with a
    failure and with the list of section 8 of the spec. *)
Lemma list_fetch_outcomes_witness :
  (isLoading (crm (fst (step (fst mount) HandleOpenAddModal))) = true /\
   pageError (crm (fst (step (fst mount) HandleOpenAddModal))) = None) /\
  pageError (crm (fst (step (fst mount) (Settle 0 (Json false Sample.refused)))))
    = Some "Failed to fetch customers" /\
  customers (crm (fst (step (fst mount) (Settle 0 (Json true Sample.list_ok)))))
    = [Sample.alice] /\
  isLoading (crm (fst (step (fst mount) (Settle 0 (Json true Sample.list_ok)))))
    = false /\
  isLoading (crm (fst (run (fst mount)
                         [HandleOpenAddModal; SetSearchTerm "a"; Timeout])))
    = true.
Proof.
  destruct list_fetch_outcomes as [_ [Hframe [Hrun [Hfail Hok]]]].
  split; [|split; [|split; [|split]]].
  - apply (Hframe (fst mount) HandleOpenAddModal).
    + cbn. exact (fun x => x).
    + reflexivity.
  - apply (Hfail (fst mount) 0%nat (Json false Sample.refused) eq_refl
                 (or_introl eq_refl)).
  - apply (Hok (fst mount) 0%nat Sample.list_ok eq_refl eq_refl).
  - apply (Hok (fst mount) 0%nat Sample.list_ok eq_refl eq_refl). reflexivity.
  - apply (Hrun (fst mount) [HandleOpenAddModal; SetSearchTerm "a"; Timeout]).
    + cbn. repeat split; exact (fun x => x).
    + reflexivity.
Defined.

(* ================================================================== *)
(** * Page navigation and the fetch effect *)
(* ================================================================== *)

Lemma truthy_spec (s : string) : truthy s = true <-> s <> "".
Proof. unfold truthy. now rewrite negb_true_iff, String.eqb_neq. Qed.

Lemma fetchTrigger_spec (r : Crm) :
  fetchTrigger r = true <-> (debouncedSearchTerm r <> "" \/ searchTerm r = "").
Proof.
  unfold fetchTrigger. now rewrite orb_true_iff, truthy_spec, String.eqb_eq.
Qed.

Lemma fetchTrigger_false (r : Crm) :
  fetchTrigger r = false <-> (debouncedSearchTerm r = "" /\ searchTerm r <> "").
Proof.
  unfold fetchTrigger, truthy.
  now rewrite orb_false_iff, negb_false_iff, String.eqb_eq, String.eqb_neq.
Qed.

(** What [goToPage] with a page in range does, the effects of the
    render that follows included. *)
Lemma goToPage_step (w : World) (n : Z) :
  1 <= n <= totalPages (pagination (crm w)) ->
  step w (GoToPage n) =
  if negb (currentPage (pagination (crm w)) =? n) && fetchTrigger (crm w)
  then
    (upd_inflight (fun l => l ++ [K_fetchCustomers])%list
       (upd_crm (upd_pageError (fun _ => None))
          (upd_crm (upd_isLoading (fun _ => true))
             (upd_crm (upd_pagination (with_currentPage n)) w))),
     [Fetch (GET_customers n 10 (debouncedSearchTerm (crm w)))])
  else (upd_crm (upd_pagination (with_currentPage n)) w, []).
Proof.
  intros [Hlo Hhi]. apply Z.leb_le in Hlo, Hhi.
  unfold step, commit, debounce_deps_changed, fetch_deps_changed.
  hook. rewrite Hlo, Hhi. hook. rewrite !String.eqb_refl. hook.
  destruct (currentPage (pagination (crm w)) =? n); hook; [reflexivity|].
  replace (fetchTrigger (upd_pagination (fun prev => with_currentPage n prev) (crm w)))
    with (fetchTrigger (crm w)) by reflexivity.
  destruct (fetchTrigger (crm w)); reflexivity.
Qed.

(** C3, as stated, fails: a page in range does not always cause a
    refetch.  With the first list loaded (page 1 of 3), [goToPage(1)]
    changes no dependency of the fetch effect, and no request leaves;
    and once the user has typed a letter that is not committed yet,
    [goToPage(2)] moves to page 2 but the fetch effect's condition is
    false, and again no request leaves. *)
Lemma goToPage_refetch_counterexample :
  (1 <= 1 <= totalPages (pagination (crm Sample.loaded)) /\
   snd (step Sample.loaded (GoToPage 1)) = []) /\
  (let typed := fst (step Sample.loaded (SetSearchTerm "a")) in
   1 <= 2 <= totalPages (pagination (crm typed)) /\
   currentPage (pagination (crm (fst (step typed (GoToPage 2))))) = 2 /\
   snd (step typed (GoToPage 2)) = []).
Proof. cbv zeta. repeat split; try reflexivity; cbn; lia. Qed.

(** C3, amended.  For every integer [n], [goToPage(n)] changes nothing
    and sends nothing when [n < 1] or [n > totalPages]; otherwise it
    sets [currentPage] to [n] and leaves [totalPages] and
    [totalCustomers] as they were, and exactly one list request, for
    page [n] and the committed search term, leaves if [n] differs from
    the page before and the fetch condition holds (the committed term is
    not empty or the live term is empty); no request leaves if [n] is
    the page the controller is on, or if that condition fails. *)
Theorem goToPage_effect (w : World) (n : Z) :
  ((n < 1 \/ n > totalPages (pagination (crm w))) ->
   step w (GoToPage n) = (w, [])) /\
  (1 <= n <= totalPages (pagination (crm w)) ->
   let w' := fst (step w (GoToPage n)) in
   let out := snd (step w (GoToPage n)) in
   currentPage (pagination (crm w')) = n /\
   totalPages (pagination (crm w')) = totalPages (pagination (crm w)) /\
   totalCustomers (pagination (crm w')) = totalCustomers (pagination (crm w)) /\
   (n <> currentPage (pagination (crm w)) ->
    (debouncedSearchTerm (crm w) <> "" \/ searchTerm (crm w) = "") ->
    out = [Fetch (GET_customers n 10 (debouncedSearchTerm (crm w)))]) /\
   (n = currentPage (pagination (crm w)) \/
    (debouncedSearchTerm (crm w) = "" /\ searchTerm (crm w) <> "") ->
    out = [])).
Proof.
  split.
  - intros Hout. apply step_quiet; try reflexivity.
    hook.
    replace ((1 <=? n) && (n <=? totalPages (pagination (crm w)))) with false.
    + destruct w; reflexivity.
    + symmetry. apply andb_false_iff.
      destruct Hout; [left; apply Z.leb_gt | right; apply Z.leb_gt]; lia.
  - intros Hin w' out. subst w' out. rewrite (goToPage_step w n Hin).
    pose proof (fetchTrigger_spec (crm w)) as Hyes.
    pose proof (fetchTrigger_false (crm w)) as Hno.
    destruct (currentPage (pagination (crm w)) =? n) eqn:Hp;
      [apply Z.eqb_eq in Hp | apply Z.eqb_neq in Hp];
      destruct (fetchTrigger (crm w)); cbn;
      repeat split; try reflexivity; intros.
    all: try congruence.
    all: try (exfalso; assert (false = true) by tauto; discriminate).
    match goal with
    | H : _ \/ _ |- _ => destruct H as [H | H]; [congruence | apply Hno in H; discriminate]
    end.
Qed.

(** On page 1 of 3: page 5 is out of range, page 2 is fetched, page 1 is
    not fetched again. *)
Lemma goToPage_effect_witness :
  step Sample.loaded (GoToPage 5) = (Sample.loaded, []) /\
  currentPage (pagination (crm (fst (step Sample.loaded (GoToPage 2))))) = 2 /\
  snd (step Sample.loaded (GoToPage 2)) = [Fetch (GET_customers 2 10 "")] /\
  snd (step Sample.loaded (GoToPage 1)) = [].
Proof.
  destruct (goToPage_effect Sample.loaded 5) as [Hout _].
  destruct (goToPage_effect Sample.loaded 2) as [_ Hin].
  destruct (goToPage_effect Sample.loaded 1) as [_ Hsame].
  split; [|split; [|split]].
  - apply Hout. right. cbn. lia.
  - apply Hin. cbn. lia.
  - apply Hin.
    + cbn. lia.
    + cbn. lia.
    + right. reflexivity.
  - apply Hsame.
    + cbn. lia.
    + left. reflexivity.
Defined.




(* ================================================================== *)
(** * The detail panel *)
(* ================================================================== *)

Lemma shows_spec (r : Crm) (c : CrmCustomer) :
  isDetailPanelOpen r && same_id (selectedCustomer r) c = true <-> shows r c.
Proof.
  unfold shows, same_id. rewrite andb_true_iff. split.
  - intros [Ho Hs]. split; [exact Ho|].
    destruct (selectedCustomer r) as [s|]; [|discriminate].
    exists s. split; [reflexivity | now apply String.eqb_eq].
  - intros [Ho [s [Hs Hid]]]. split; [exact Ho|].
    rewrite Hs. now apply String.eqb_eq.
Qed.

Lemma view_step_toggle (w : World) (c : CrmCustomer) :
  shows (crm w) c ->
  step w (HandleViewCustomerDetails c) =
  (upd_crm (upd_isDetailPanelOpen (fun _ => false)) w, []).
Proof.
  intros Hs. apply shows_spec in Hs.
  apply step_quiet; try reflexivity. hook. now rewrite Hs.
Qed.

Lemma view_step_open (w : World) (c : CrmCustomer) :
  ~ shows (crm w) c ->
  step w (HandleViewCustomerDetails c) =
  (upd_inflight (fun l => l ++ [K_handleViewCustomerDetails])%list
     (upd_crm (upd_selectedCustomer (fun _ => None))
        (upd_crm (upd_isDetailPanelOpen (fun _ => true))
           (upd_crm (upd_panelKey (fun prevKey => prevKey + 1)) w))),
   [Fetch (GET_customer (_id c))]).
Proof.
  intros Hs. rewrite <- shows_spec in Hs. apply not_true_is_false in Hs.
  apply step_quiet; try reflexivity. hook. now rewrite Hs.
Qed.

Lemma view_settle_ok (w : World) (k : nat) (data : Api.Body) :
  nth_error (inflight w) k = Some K_handleViewCustomerDetails ->
  Api.success data = true ->
  step w (Settle k (Json true data)) =
  (upd_crm (upd_selectedCustomer (fun _ => Api.customer data))
     (upd_inflight (remove_nth k) w), []).
Proof.
  intros Hk Hs. apply step_quiet; try reflexivity.
  hook. rewrite Hk. hook. rewrite Hs. reflexivity.
Qed.

Lemma view_settle_failed (w : World) (k : nat) (reply : Reply) :
  nth_error (inflight w) k = Some K_handleViewCustomerDetails ->
  failed reply ->
  step w (Settle k reply) =
  (upd_crm (upd_selectedCustomer (fun _ => None))
     (upd_inflight (remove_nth k) w),
   [Toast_error ("Error loading details: "
                 ++ failure_message "Failed to fetch details" reply)]).
Proof.
  intros Hk Hf. apply step_quiet; try reflexivity.
  hook. rewrite Hk.
  destruct reply as [e | ok data]; cbn [failed failure_message] in *; hook.
  - reflexivity.
  - destruct Hf as [-> | ->]; [|rewrite orb_true_r]; reflexivity.
Qed.

(** C4.  [viewDetails(c)] called while the panel is open and the
    selected customer has the identifier of [c] closes the panel and
    changes nothing else: [panelKey], [selectedCustomer], the list, the
    pagination and the modal state stay, and nothing is sent or shown.
    Otherwise [panelKey] goes up by one, the panel is open,
    [selectedCustomer] is cleared and the detail request for [c] leaves.
    When its reply comes, [selectedCustomer] becomes the customer of
    the reply; or, when the fetch failed (rejected promise, status not
    OK, or [success] false), one error toast is shown and
    [selectedCustomer] is absent. *)
Theorem viewDetails_behaviour :
  (forall (w : World) (c : CrmCustomer),
      shows (crm w) c ->
      let w' := fst (step w (HandleViewCustomerDetails c)) in
      w' = upd_crm (upd_isDetailPanelOpen (fun _ => false)) w /\
      snd (step w (HandleViewCustomerDetails c)) = [] /\
      isDetailPanelOpen (crm w') = false /\
      panelKey (crm w') = panelKey (crm w) /\
      selectedCustomer (crm w') = selectedCustomer (crm w) /\
      customers (crm w') = customers (crm w) /\
      pagination (crm w') = pagination (crm w) /\
      isAddEditModalOpen (crm w') = isAddEditModalOpen (crm w) /\
      editingCustomer (crm w') = editingCustomer (crm w)) /\
  (forall (w : World) (c : CrmCustomer),
      ~ shows (crm w) c ->
      let w' := fst (step w (HandleViewCustomerDetails c)) in
      panelKey (crm w') = panelKey (crm w) + 1 /\
      isDetailPanelOpen (crm w') = true /\
      selectedCustomer (crm w') = None /\
      snd (step w (HandleViewCustomerDetails c)) = [Fetch (GET_customer (_id c))] /\
      inflight w' = (inflight w ++ [K_handleViewCustomerDetails])%list) /\
  (forall (w : World) (k : nat) (data : Api.Body),
      nth_error (inflight w) k = Some K_handleViewCustomerDetails ->
      Api.success data = true ->
      selectedCustomer (crm (fst (step w (Settle k (Json true data)))))
        = Api.customer data /\
      snd (step w (Settle k (Json true data))) = []) /\
  (forall (w : World) (k : nat) (reply : Reply),
      nth_error (inflight w) k = Some K_handleViewCustomerDetails ->
      failed reply ->
      selectedCustomer (crm (fst (step w (Settle k reply)))) = None /\
      snd (step w (Settle k reply))
        = [Toast_error ("Error loading details: "
                        ++ failure_message "Failed to fetch details" reply)]).
Proof.
  split; [|split; [|split]].
  - intros w c Hs. rewrite (view_step_toggle w c Hs). cbn. repeat split.
  - intros w c Hs. rewrite (view_step_open w c Hs). cbn. repeat split.
  - intros w k data Hk Hs. rewrite (view_settle_ok w k data Hk Hs). cbn. auto.
  - intros w k reply Hk Hf. rewrite (view_settle_failed w k reply Hk Hf). cbn. auto.
Qed.

(** Clicking the row that the open panel shows closes it; clicking a row
    with the panel closed opens it; the detail reply fills it or fails. *)
Lemma viewDetails_behaviour_witness :
  isDetailPanelOpen (crm (fst (step Sample.viewing
                                 (HandleViewCustomerDetails Sample.alice)))) = false /\
  panelKey (crm (fst (step Sample.loaded
                        (HandleViewCustomerDetails Sample.alice)))) = 1 /\
  selectedCustomer (crm Sample.viewing) = Some Sample.alice_member /\
  snd (step Sample.opening (Settle 1 (Json false Sample.refused)))
    = [Toast_error "Error loading details: Failed to fetch details"].
Proof.
  destruct viewDetails_behaviour as [Htoggle [Hopen [Hok Hfail]]].
  split; [|split; [|split]].
  - apply (Htoggle Sample.viewing Sample.alice).
    split; [reflexivity|]. exists Sample.alice_member. split; reflexivity.
  - apply (Hopen Sample.loaded Sample.alice).
    intros [Ho _]. discriminate Ho.
  - apply (Hok Sample.opening 1%nat Sample.granted); reflexivity.
  - apply (Hfail Sample.opening 1%nat (Json false Sample.refused)).
    + reflexivity.
    + left. reflexivity.
Defined.

(** C10.  [viewDetails(c)] called while the panel is open and no
    customer is selected (the detail fetch that opened the panel is
    still in flight, or it failed) never closes the panel, whichever
    [c] is: the panel stays open, [panelKey] goes up by one,
    [selectedCustomer] stays absent and a new detail request for [c]
    leaves. *)
Theorem viewDetails_without_selection (w : World) (c : CrmCustomer) :
  isDetailPanelOpen (crm w) = true ->
  selectedCustomer (crm w) = None ->
  let w' := fst (step w (HandleViewCustomerDetails c)) in
  isDetailPanelOpen (crm w') = true /\
  panelKey (crm w') = panelKey (crm w) + 1 /\
  selectedCustomer (crm w') = None /\
  snd (step w (HandleViewCustomerDetails c)) = [Fetch (GET_customer (_id c))] /\
  inflight w' = (inflight w ++ [K_handleViewCustomerDetails])%list.
Proof.
  intros Ho Hs. cbv zeta.
  rewrite view_step_open.
  - cbn. repeat split.
  - intros [_ [s [Hsome _]]]. congruence.
Qed.

(** A second click on the same row while its detail request is still in
    flight. *)
Lemma viewDetails_without_selection_witness :
  let again := step Sample.opening (HandleViewCustomerDetails Sample.alice) in
  isDetailPanelOpen (crm (fst again)) = true /\
  panelKey (crm (fst again)) = 2 /\
  snd again = [Fetch (GET_customer "a")] /\
  inflight (fst again)
    = [K_fetchCustomers; K_handleViewCustomerDetails; K_handleViewCustomerDetails].
Proof.
  destruct (viewDetails_without_selection Sample.opening Sample.alice
              eq_refl eq_refl) as [Ho [Hk [_ [Hout Hin]]]].
  cbv zeta. split; [exact Ho | split; [exact Hk | split; [exact Hout | exact Hin]]].
Defined.

(* ================================================================== *)
(** * Deactivating a customer *)
(* ================================================================== *)


Lemma delete_step_confirmed (w : World) (customerId customerName : string) :
  step w (HandleDeleteCustomer customerId customerName true) =
  (upd_inflight (fun l => l ++ [K_handleDeleteCustomer (crm w)])%list w,
   [Confirm (deactivate_question customerName);
    Fetch (DELETE_customer customerId)]).
Proof. apply step_quiet; reflexivity. Qed.

Lemma delete_settle_failed (w : World) (k : nat) (r : Crm) (reply : Reply) :
  nth_error (inflight w) k = Some (K_handleDeleteCustomer r) ->
  failed reply ->
  step w (Settle k reply) =
  (upd_inflight (remove_nth k) w,
   [Toast_error (failure_message "Failed to deactivate customer." reply)]).
Proof.
  intros Hk Hf. apply step_quiet; try reflexivity.
  hook. rewrite Hk.
  destruct reply as [e | ok data]; cbn [failed failure_message] in *; hook.
  - reflexivity.
  - destruct Hf as [-> | ->]; [|rewrite orb_true_r]; reflexivity.
Qed.

Lemma delete_settle_ok (w : World) (k : nat) (r : Crm) (data : Api.Body) :
  nth_error (inflight w) k = Some (K_handleDeleteCustomer r) ->
  Api.success data = true ->
  step w (Settle k (Json true data)) =
  (upd_inflight (fun l => l ++ [K_fetchCustomers])%list
     (upd_crm (upd_pageError (fun _ => None))
        (upd_crm (upd_isLoading (fun _ => true))
           (upd_inflight (remove_nth k) w))),
   [Toast_success "Customer deactivated successfully.";
    Fetch (GET_customers (currentPage (pagination r)) 10 (debouncedSearchTerm r))]).
Proof.
  intros Hk Hs. apply step_quiet; try reflexivity.
  hook. rewrite Hk. hook. rewrite Hs. reflexivity.
Qed.

Lemma nth_error_last {A} (l : list A) (x : A) :
  nth_error (l ++ [x]) (List.length l) = Some x.
Proof. rewrite nth_error_app2, Nat.sub_diag by lia. reflexivity. Qed.




(* ================================================================== *)
(** * Which replies count as a success *)
(* ================================================================== *)

Lemma grant_step_failed (w : World) (k : nat) (customerId : string)
    (ok : bool) (result : Api.Body) :
  nth_error (inflight w) k = Some (K_handleGrantMembership customerId) ->
  Api.success result = false \/ Api.customer result = None ->
  step w (Settle k (Json ok result)) =
  (upd_crm (upd_isMembershipUpdating (fun _ => false))
     (upd_inflight (remove_nth k) w),
   [Toast_error (or_default (Api.message result) "Failed to grant membership.")]).
Proof.
  intros Hk Hf. apply step_quiet; try reflexivity.
  hook. rewrite Hk. hook.
  destruct Hf as [-> | ->]; hook; [|rewrite orb_true_r]; reflexivity.
Qed.

(** C9.  Whether a membership grant succeeded is read from the JSON
    body alone: the reply is handled as a success (the success toast is
    shown) exactly when the body has [success] true and a [customer],
    and the outcome is the same whether the HTTP status is OK or not;
    so a reply with a status that is not OK whose body has [success]
    true and a customer is handled as a success.  The list fetch, the
    detail fetch and the deactivation handle every reply whose status
    is not OK as a failure, whatever its body says. *)
Theorem success_test_by_operation :
  (forall (w : World) (k : nat) (customerId : string) (result : Api.Body),
      nth_error (inflight w) k = Some (K_handleGrantMembership customerId) ->
      step w (Settle k (Json false result)) = step w (Settle k (Json true result))) /\
  (forall (w : World) (k : nat) (customerId : string) (ok : bool) (result : Api.Body),
      nth_error (inflight w) k = Some (K_handleGrantMembership customerId) ->
      ((exists text, In (Toast_success text) (snd (step w (Settle k (Json ok result)))))
       <-> (Api.success result = true /\ Api.customer result <> None))) /\
  (forall (w : World) (k : nat) (customerId : string)
          (result : Api.Body) (fresh : CrmCustomer),
      nth_error (inflight w) k = Some (K_handleGrantMembership customerId) ->
      Api.success result = true ->
      Api.customer result = Some fresh ->
      selectedCustomer (crm (fst (step w (Settle k (Json false result))))) = Some fresh /\
      panelKey (crm (fst (step w (Settle k (Json false result))))) = panelKey (crm w) + 1) /\
  (forall (w : World) (k : nat) (data : Api.Body),
      nth_error (inflight w) k = Some K_fetchCustomers ->
      let w' := fst (step w (Settle k (Json false data))) in
      customers (crm w') = customers (crm w) /\
      pagination (crm w') = pagination (crm w) /\
      pageError (crm w')
      = Some (or_default (Api.message data) "Failed to fetch customers")) /\
  (forall (w : World) (k : nat) (data : Api.Body),
      nth_error (inflight w) k = Some K_handleViewCustomerDetails ->
      selectedCustomer (crm (fst (step w (Settle k (Json false data))))) = None /\
      snd (step w (Settle k (Json false data)))
      = [Toast_error ("Error loading details: "
                      ++ or_default (Api.message data) "Failed to fetch details")]) /\
  (forall (w : World) (k : nat) (r : Crm) (data : Api.Body),
      nth_error (inflight w) k = Some (K_handleDeleteCustomer r) ->
      crm (fst (step w (Settle k (Json false data)))) = crm w /\
      snd (step w (Settle k (Json false data)))
      = [Toast_error (or_default (Api.message data) "Failed to deactivate customer.")]).
Proof.
  split; [|split; [|split; [|split; [|split]]]].
  - intros w k customerId result Hk.
    destruct (Api.success result) eqn:Hs; [destruct (Api.customer result) eqn:Hc|].
    + now rewrite !(grant_step_eq w k customerId _ result c Hk Hs Hc).
    + now rewrite !(grant_step_failed w k customerId _ result Hk (or_intror Hc)).
    + now rewrite !(grant_step_failed w k customerId _ result Hk (or_introl Hs)).
  - intros w k customerId ok result Hk.
    destruct (Api.success result) eqn:Hs; [destruct (Api.customer result) eqn:Hc|].
    + rewrite (grant_step_eq w k customerId ok result c Hk Hs Hc). cbn [snd].
      split; [intros _; split; [reflexivity | discriminate]|].
      intros _. eexists. left. reflexivity.
    + rewrite (grant_step_failed w k customerId ok result Hk (or_intror Hc)).
      cbn [snd]. split.
      * intros [text [H | []]]. discriminate H.
      * intros [_ H]. now contradiction H.
    + rewrite (grant_step_failed w k customerId ok result Hk (or_introl Hs)).
      cbn [snd]. split.
      * intros [text [H | []]]. discriminate H.
      * intros [H _]. discriminate H.
  - intros w k customerId result fresh Hk Hs Hc.
    rewrite (grant_step_eq w k customerId false result fresh Hk Hs Hc).
    cbn. split; reflexivity.
  - intros w k data Hk.
    rewrite (list_fetch_failed_step w k (Json false data) Hk (or_introl eq_refl)).
    cbn. repeat split.
  - intros w k data Hk.
    rewrite (view_settle_failed w k (Json false data) Hk (or_introl eq_refl)).
    cbn. split; reflexivity.
  - intros w k r data Hk.
    rewrite (delete_settle_failed w k r (Json false data) Hk (or_introl eq_refl)).
    cbn. split; reflexivity.
Qed.

(** Replies with a status that is not OK and a body that says success. *)
Lemma success_test_by_operation_witness :
  (exists text,
      In (Toast_success text)
         (snd (step Sample.granting (Settle 0 (Json false Sample.granted))))) /\
  selectedCustomer
    (crm (fst (step Sample.granting (Settle 0 (Json false Sample.granted)))))
    = Some Sample.alice_member /\
  pageError (crm (fst (step (fst mount) (Settle 0 (Json false Sample.list_ok)))))
    = Some "Failed to fetch customers" /\
  snd (step Sample.opening (Settle 1 (Json false Sample.granted)))
    = [Toast_error "Error loading details: Failed to fetch details"] /\
  snd (step Sample.deactivating (Settle 1 (Json false Sample.done)))
    = [Toast_error "Failed to deactivate customer."].
Proof.
  destruct success_test_by_operation as [_ [Hiff [Hgrant [Hlist [Hview Hdel]]]]].
  split; [|split; [|split; [|split]]].
  - apply (Hiff Sample.granting 0%nat "a" false Sample.granted eq_refl).
    split; [reflexivity | discriminate].
  - apply (Hgrant Sample.granting 0%nat "a" Sample.granted Sample.alice_member);
      reflexivity.
  - apply (Hlist (fst mount) 0%nat Sample.list_ok eq_refl).
  - apply (Hview Sample.opening 1%nat Sample.granted eq_refl).
  - apply (Hdel Sample.deactivating 1%nat initial Sample.done eq_refl).
Defined.

(* ================================================================== *)
(** * The debounce timer *)
(* ================================================================== *)

(** A pending timer is always the one of the live search term, with a
    delay of 500 ms: the debounce effect restarts it in the render that
    follows each change. *)
Lemma timer_holds_searchTerm (w : World) :
  reachable w ->
  forall t, timer w = Some t ->
            t = {| delay := 500; captured := searchTerm (crm w) |}.
Proof.
  induction 1 as [|w e Hw IH].
  - cbn. intros t [= <-]. reflexivity.
  - destruct e; unfold step, commit; hook.
    1: { (* setSearchTerm *)
      unfold debounce_deps_changed; hook.
      destruct (searchTerm (crm w) =? value)%string eqn:Hv; hook; branches; cbn.
      all: try (intros t [= <-]; reflexivity).
      all: apply String.eqb_eq in Hv; rewrite <- Hv; exact IH. }
    1: { (* the timer fires *)
      branches; cbn; intros t' Ht';
        first [ injection Ht' as <-; reflexivity | congruence ]. }
    all: branches; cbn; try exact IH; intros t [= <-]; reflexivity.
Qed.

(** The committed search term changes only when the timer fires. *)
Lemma debounced_changes_on_timeout (w : World) (e : Event) :
  debouncedSearchTerm (crm (fst (step w e))) <> debouncedSearchTerm (crm w) ->
  currentPage (pagination (crm (fst (step w e)))) = 1.
Proof.
  destruct e; unfold step, commit; hook; branches; cbn; intros Hd.
  all: first [ reflexivity | now contradiction Hd ].
Qed.

(** C6.  When the debounce timer of a mounted controller fires,
    [debouncedSearchTerm] becomes the live [searchTerm] and
    [currentPage] becomes 1 (the timer had a delay of 500 ms, it is
    then spent, and the live term is untouched); and whatever the
    event, if it changes [debouncedSearchTerm] then [currentPage] is 1
    after it. *)
Theorem debounce_commits_and_resets :
  (forall (w : World) (t : Timer),
      reachable w ->
      timer w = Some t ->
      let w' := fst (step w Timeout) in
      delay t = 500 /\
      debouncedSearchTerm (crm w') = searchTerm (crm w) /\
      currentPage (pagination (crm w')) = 1 /\
      searchTerm (crm w') = searchTerm (crm w) /\
      timer w' = None) /\
  (forall (w : World) (e : Event),
      debouncedSearchTerm (crm (fst (step w e))) <> debouncedSearchTerm (crm w) ->
      currentPage (pagination (crm (fst (step w e)))) = 1).
Proof.
  split; [|exact debounced_changes_on_timeout].
  intros w t Hw Ht.
  pose proof (timer_holds_searchTerm w Hw t Ht) as ->.
  unfold step, commit, debounce_deps_changed. hook. rewrite Ht. hook.
  rewrite String.eqb_refl. hook.
  branches; cbn; repeat split.
Qed.

(** On page 3 the user types three letters; the timer fires. *)
Lemma debounce_commits_and_resets_witness :
  let typed := fst (run Sample.loaded [GoToPage 3; SetSearchTerm "ali"]) in
  currentPage (pagination (crm typed)) = 3 /\
  debouncedSearchTerm (crm (fst (step typed Timeout))) = "ali" /\
  currentPage (pagination (crm (fst (step typed Timeout)))) = 1.
Proof.
  destruct debounce_commits_and_resets as [Hfire Hchange].
  cbv zeta. split; [reflexivity | split].
  - apply (Hfire (fst (run Sample.loaded [GoToPage 3; SetSearchTerm "ali"]))
                 {| delay := 500; captured := "ali" |}).
    + apply reachable_run. apply reachable_step. apply reachable_mount.
    + reflexivity.
  - apply (Hchange (fst (run Sample.loaded [GoToPage 3; SetSearchTerm "ali"])) Timeout).
    discriminate.
Defined.

(* ================================================================== *)
(** * The remount key *)
(* ================================================================== *)

Lemma remounts_spec (w : World) (e : Event) :
  remountsb w e = true <-> remounts w e.
Proof.
  destruct e; cbn [remountsb remounts]; try (split; [discriminate | contradiction]).
  - rewrite negb_true_iff, <- shows_spec.
    destruct (isDetailPanelOpen (crm w) && same_id (selectedCustomer (crm w)) customer);
      split; congruence.
  - destruct reply as [msg | ok result]; [split; [discriminate | contradiction]|].
    destruct (nth_error (inflight w) k) as [[| | r | customerId]|] eqn:Hk.
    all: try (split; [discriminate | intros [[c Hc] _]; discriminate Hc]).
    rewrite andb_true_iff. split.
    + intros [Hs Hc]. split; [now exists customerId|]. split; [exact Hs|].
      destruct (Api.customer result); [discriminate | discriminate Hc].
    + intros [_ [Hs Hc]]. split; [exact Hs|].
      destruct (Api.customer result); [reflexivity | now contradiction Hc].
Qed.

(** [panelKey] after an event. *)
Lemma panelKey_step (w : World) (e : Event) :
  panelKey (crm (fst (step w e))) =
  if remountsb w e then panelKey (crm w) + 1 else panelKey (crm w).
Proof.
  destruct e; unfold step, commit, remountsb; hook.
  1-4, 6-11: branches; reflexivity.
  - destruct (isDetailPanelOpen (crm w) && same_id (selectedCustomer (crm w)) customer);
      hook; branches; reflexivity.
  - destruct (nth_error (inflight w) k) as [[| | r | customerId]|];
      destruct reply as [msg | ok result]; hook.
    all: try (destruct (Api.success result); destruct (Api.customer result);
              destruct ok; hook).
    all: branches; reflexivity.
Qed.

(** C8.  An event that forces a remount (opening the panel for a
    customer it does not show, or the reply of a membership grant with
    [success] true and a customer) adds exactly one to [panelKey]; every
    other event leaves [panelKey] as it is; so [panelKey] never goes
    down, over one event or over any run of events. *)
Theorem panelKey_monotone :
  (forall (w : World) (e : Event),
      remounts w e -> panelKey (crm (fst (step w e))) = panelKey (crm w) + 1) /\
  (forall (w : World) (e : Event),
      ~ remounts w e -> panelKey (crm (fst (step w e))) = panelKey (crm w)) /\
  (forall (w : World) (e : Event),
      panelKey (crm w) <= panelKey (crm (fst (step w e)))) /\
  (forall (w : World) (es : list Event),
      panelKey (crm w) <= panelKey (crm (fst (run w es)))).
Proof.
  assert (Hstep : forall w e, panelKey (crm w) <= panelKey (crm (fst (step w e)))).
  { intros w e. rewrite panelKey_step. destruct (remountsb w e); lia. }
  split; [|split; [|split]].
  - intros w e Hr. apply remounts_spec in Hr. now rewrite panelKey_step, Hr.
  - intros w e Hr. rewrite <- remounts_spec in Hr.
    apply not_true_is_false in Hr. now rewrite panelKey_step, Hr.
  - exact Hstep.
  - intros w es. revert w. induction es as [|e es IH]; intros w; cbn [run].
    + cbn. lia.
    + specialize (Hstep w e). destruct (step w e) as [w1 out1]. cbn [fst] in Hstep.
      specialize (IH w1). destruct (run w1 es) as [w2 out2]. cbn [fst] in *. lia.
Qed.

(** The two remounting events, and the toggle that is not one. *)
Lemma panelKey_monotone_witness :
  panelKey (crm (fst (step Sample.loaded (HandleViewCustomerDetails Sample.alice))))
    = panelKey (crm Sample.loaded) + 1 /\
  panelKey (crm (fst (step Sample.granting (Settle 0 (Json true Sample.granted)))))
    = panelKey (crm Sample.granting) + 1 /\
  panelKey (crm (fst (step Sample.viewing (HandleViewCustomerDetails Sample.alice))))
    = panelKey (crm Sample.viewing).
Proof.
  destruct panelKey_monotone as [Hup [Hsame _]].
  split; [|split].
  - apply (Hup Sample.loaded (HandleViewCustomerDetails Sample.alice)).
    intros [Ho _]. discriminate Ho.
  - apply (Hup Sample.granting (Settle 0 (Json true Sample.granted))).
    split; [exists "a"; reflexivity | split; [reflexivity | discriminate]].
  - apply (Hsame Sample.viewing (HandleViewCustomerDetails Sample.alice)).
    intros Hn. apply Hn.
    split; [reflexivity|]. exists Sample.alice_member. split; reflexivity.
Defined.

(* ================================================================== *)
(** * The add/edit modal *)
(* ================================================================== *)

(** X1.  In every state a mounted controller can reach, a customer is
    being edited only while the modal is open: when
    [isAddEditModalOpen] is false, [editingCustomer] is absent. *)
Theorem editing_only_while_open (w : World) :
  reachable w ->
  isAddEditModalOpen (crm w) = false ->
  editingCustomer (crm w) = None.
Proof.
  induction 1 as [|w e Hw IH].
  - reflexivity.
  - destruct e; unfold step, commit; hook; branches; cbn;
      first [ exact IH | discriminate | reflexivity ].
Qed.

(** A controller that has opened the editor and closed it again. *)
Lemma editing_only_while_open_witness :
  editingCustomer
    (crm (fst (run (fst mount)
                 [HandleOpenEditModal Sample.alice; HandleCloseAddEditModal])))
  = None.
Proof.
  apply editing_only_while_open.
  - apply reachable_run. apply reachable_mount.
  - reflexivity.
Defined.

Lemma modal_step (w : World) (e : Event) :
  modal_event e ->
  snd (step w e) = [] /\
  timer (fst (step w e)) = timer w /\
  inflight (fst (step w e)) = inflight w /\
  upd_editingCustomer (fun _ => None)
    (upd_isAddEditModalOpen (fun _ => false) (crm (fst (step w e))))
  = upd_editingCustomer (fun _ => None)
      (upd_isAddEditModalOpen (fun _ => false) (crm w)).
Proof.
  destruct e; cbn [modal_event]; try contradiction; intros _.
  all: erewrite step_quiet by reflexivity; cbn; repeat split.
Qed.

(** X2.  Whatever sequence of modal operations the UI performs (open
    for create, open for edit, close), nothing is sent or shown, the
    timer and the requests in flight stay as they are, and no state
    cell other than [isAddEditModalOpen] and [editingCustomer] changes:
    the states before and after agree once those two cells are
    blanked. *)
Theorem modal_runs_are_local (w : World) (es : list Event) :
  Forall modal_event es ->
  snd (run w es) = [] /\
  timer (fst (run w es)) = timer w /\
  inflight (fst (run w es)) = inflight w /\
  upd_editingCustomer (fun _ => None)
    (upd_isAddEditModalOpen (fun _ => false) (crm (fst (run w es))))
  = upd_editingCustomer (fun _ => None)
      (upd_isAddEditModalOpen (fun _ => false) (crm w)).
Proof.
  intros Hes. revert w. induction Hes as [|e es He Hes IH]; intros w; cbn [run].
  - repeat split.
  - destruct (modal_step w e He) as [Ho [Ht [Hi Hc]]].
    destruct (step w e) as [w1 out1]. cbn [fst snd] in *.
    destruct (IH w1) as [Ho' [Ht' [Hi' Hc']]].
    destruct (run w1 es) as [w2 out2]. cbn [fst snd] in *.
    subst out1 out2. repeat split; congruence.
Qed.

(** Open for edit, open for create, close, on a loaded list. *)
Lemma modal_runs_are_local_witness :
  let es := [HandleOpenEditModal Sample.alice; HandleOpenAddModal;
             HandleCloseAddEditModal] in
  snd (run Sample.loaded es) = [] /\
  inflight (fst (run Sample.loaded es)) = inflight Sample.loaded.
Proof.
  destruct (modal_runs_are_local Sample.loaded
              [HandleOpenEditModal Sample.alice; HandleOpenAddModal;
               HandleCloseAddEditModal]) as [Ho [_ [Hi _]]].
  - repeat constructor.
  - cbv zeta. split; [exact Ho | exact Hi].
Defined.

(* ================================================================== *)
(** * Typing in the search box *)
(* ================================================================== *)

(** One keystroke: the live term is set, and the debounce effect
    restarts the timer when the term differs from the one before.
    Nothing is sent. *)
Lemma keystroke_step (w : World) (value : string) :
  step w (SetSearchTerm value) =
  (if (searchTerm (crm w) =? value)%string
   then upd_crm (upd_searchTerm (fun _ => value)) w
   else upd_timer (Some {| delay := 500; captured := value |})
          (upd_crm (upd_searchTerm (fun _ => value)) w),
   []).
Proof.
  unfold step, commit, debounce_deps_changed, fetch_deps_changed. hook.
  rewrite Z.eqb_refl, String.eqb_refl. hook.
  destruct (searchTerm (crm w) =? value)%string; reflexivity.
Qed.

Lemma last_cons_default {A} (x : A) (l : list A) (d d' : A) :
  last (x :: l) d = last (x :: l) d'.
Proof.
  revert x. induction l as [|y l IH]; intros x; [reflexivity|].
  change (last (y :: l) d = last (y :: l) d'). apply IH.
Qed.

Lemma keystrokes_frame (w : World) (values : list string) :
  snd (run w (keystrokes values)) = [] /\
  searchTerm (crm (fst (run w (keystrokes values)))) = last values (searchTerm (crm w)) /\
  debouncedSearchTerm (crm (fst (run w (keystrokes values)))) = debouncedSearchTerm (crm w) /\
  pagination (crm (fst (run w (keystrokes values)))) = pagination (crm w) /\
  customers (crm (fst (run w (keystrokes values)))) = customers (crm w) /\
  inflight (fst (run w (keystrokes values))) = inflight w.
Proof.
  revert w. induction values as [|v values IH]; intros w; cbn [keystrokes map run].
  - repeat split.
  - rewrite keystroke_step. fold (keystrokes values).
    assert (Hlast : forall d, last values v = last (v :: values) d).
    { intros d. destruct values as [|v' values]; [reflexivity|].
      cbn [last]. apply last_cons_default. }
    destruct (searchTerm (crm w) =? v)%string.
    + destruct (IH (upd_crm (upd_searchTerm (fun _ => v)) w))
        as [Ho [Hs [Hd [Hp [Hc Hi]]]]].
      destruct (run (upd_crm (upd_searchTerm (fun _ => v)) w) (keystrokes values))
        as [w2 out2]. cbn [fst snd] in *. subst out2.
      rewrite Hs, Hd, Hp, Hc, Hi. cbn. rewrite (Hlast (searchTerm (crm w))).
      repeat split.
    + destruct (IH (upd_timer (Some {| delay := 500; captured := v |})
                      (upd_crm (upd_searchTerm (fun _ => v)) w)))
        as [Ho [Hs [Hd [Hp [Hc Hi]]]]].
      destruct (run (upd_timer (Some {| delay := 500; captured := v |})
                       (upd_crm (upd_searchTerm (fun _ => v)) w)) (keystrokes values))
        as [w2 out2]. cbn [fst snd] in *. subst out2.
      rewrite Hs, Hd, Hp, Hc, Hi. cbn. rewrite (Hlast (searchTerm (crm w))).
      repeat split.
Qed.

Lemma keystrokes_timer (values : list string) (w : World) :
  (timer w <> None -> timer (fst (run w (keystrokes values))) <> None) /\
  (searchTerm (crm (fst (run w (keystrokes values)))) <> searchTerm (crm w) ->
   timer (fst (run w (keystrokes values))) <> None).
Proof.
  revert w. induction values as [|v values IH]; intros w; cbn [keystrokes map run].
  - split; [auto | intros H; now contradiction H].
  - rewrite keystroke_step. fold (keystrokes values).
    destruct (searchTerm (crm w) =? v)%string eqn:Hv.
    + apply String.eqb_eq in Hv.
      destruct (IH (upd_crm (upd_searchTerm (fun _ => v)) w)) as [IH1 IH2].
      destruct (run (upd_crm (upd_searchTerm (fun _ => v)) w) (keystrokes values))
        as [w2 out2]. cbn [fst snd] in *.
      split; [exact IH1 | intros H; apply IH2; cbn; congruence].
    + destruct (IH (upd_timer (Some {| delay := 500; captured := v |})
                      (upd_crm (upd_searchTerm (fun _ => v)) w))) as [IH1 _].
      destruct (run (upd_timer (Some {| delay := 500; captured := v |})
                       (upd_crm (upd_searchTerm (fun _ => v)) w)) (keystrokes values))
        as [w2 out2]. cbn [fst snd] in *.
      split; intros _; apply IH1; discriminate.
Qed.

(** X3.  A burst of keystrokes, with no timer firing in between, sends
    nothing and commits nothing: the live term is the last value typed,
    the committed term, the pagination, the list and the requests in
    flight are untouched.  If the last value differs from the term
    before the burst, one timer of 500 ms for that value is pending, and
    when it fires the committed term becomes the last value typed: the
    values in between are never committed. *)
Theorem keystroke_burst (w : World) (values : list string) :
  reachable w ->
  let typed := fst (run w (keystrokes values)) in
  snd (run w (keystrokes values)) = [] /\
  searchTerm (crm typed) = last values (searchTerm (crm w)) /\
  debouncedSearchTerm (crm typed) = debouncedSearchTerm (crm w) /\
  pagination (crm typed) = pagination (crm w) /\
  customers (crm typed) = customers (crm w) /\
  inflight typed = inflight w /\
  (last values (searchTerm (crm w)) <> searchTerm (crm w) ->
   timer typed = Some {| delay := 500;
                         captured := last values (searchTerm (crm w)) |} /\
   debouncedSearchTerm (crm (fst (step typed Timeout)))
   = last values (searchTerm (crm w))).
Proof.
  intros Hw typed.
  destruct (keystrokes_frame w values) as [Ho [Hs [Hd [Hp [Hc Hi]]]]].
  fold typed in Hs, Hd, Hp, Hc, Hi.
  repeat (split; [assumption|]).
  intros Hne.
  assert (Hr : reachable typed) by (apply reachable_run; exact Hw).
  destruct (keystrokes_timer values w) as [_ Ht]. fold typed in Ht.
  rewrite Hs in Ht. specialize (Ht Hne).
  destruct (timer typed) as [t|] eqn:Htimer; [|now contradiction Ht].
  pose proof (timer_holds_searchTerm typed Hr t Htimer) as Heq.
  rewrite Hs in Heq. subst t. split; [reflexivity|].
  unfold step, commit. hook. rewrite Htimer. hook. branches; reflexivity.
Qed.

(** Three keystrokes on a loaded list, then the timer. *)
Lemma keystroke_burst_witness :
  let typed := fst (run Sample.loaded (keystrokes ["a"; "al"; "ali"])) in
  snd (run Sample.loaded (keystrokes ["a"; "al"; "ali"])) = [] /\
  debouncedSearchTerm (crm typed) = "" /\
  debouncedSearchTerm (crm (fst (step typed Timeout))) = "ali".
Proof.
  assert (Hr : reachable Sample.loaded)
    by (apply reachable_step; apply reachable_mount).
  destruct (keystroke_burst Sample.loaded ["a"; "al"; "ali"] Hr)
    as [Ho [_ [Hd [_ [_ [_ Hfire]]]]]].
  cbv zeta. split; [exact Ho | split; [exact Hd|]].
  apply Hfire. discriminate.
Defined.

(** X4.  When the pending timer of a mounted controller fires, the
    guard of the fetch effect never blocks: exactly one list request,
    for page 1 and the live search term, is sent if the controller was
    not on page 1 or the committed term differed from the live one; and
    nothing is sent if it was on page 1 with the committed term already
    equal to the live one. *)
Theorem timer_fire_refetch (w : World) (t : Timer) :
  reachable w ->
  timer w = Some t ->
  (currentPage (pagination (crm w)) <> 1 \/
   debouncedSearchTerm (crm w) <> searchTerm (crm w) ->
   snd (step w Timeout) = [Fetch (GET_customers 1 10 (searchTerm (crm w)))]) /\
  (currentPage (pagination (crm w)) = 1 /\
   debouncedSearchTerm (crm w) = searchTerm (crm w) ->
   snd (step w Timeout) = []).
Proof.
  intros Hw Ht.
  pose proof (timer_holds_searchTerm w Hw t Ht) as ->.
  unfold step, commit, debounce_deps_changed, fetch_deps_changed.
  hook. rewrite Ht. hook. rewrite String.eqb_refl. hook.
  unfold fetchTrigger, truthy. hook.
  assert (Hg : (negb (searchTerm (crm w) =? "") || (searchTerm (crm w) =? ""))%string = true)
    by (destruct (searchTerm (crm w) =? "")%string; reflexivity).
  rewrite Hg.
  destruct (currentPage (pagination (crm w)) =? 1) eqn:Hp;
    [apply Z.eqb_eq in Hp | apply Z.eqb_neq in Hp];
    (destruct (debouncedSearchTerm (crm w) =? searchTerm (crm w))%string eqn:Hd;
     [apply String.eqb_eq in Hd | apply String.eqb_neq in Hd]);
    hook; split; intros H; try reflexivity.
  all: exfalso; tauto.
Qed.

(** On page 3, with nothing typed, the timer started by the first
    render fires: the controller goes back to page 1. *)
Lemma timer_fire_refetch_witness :
  snd (step (fst (step Sample.loaded (GoToPage 3))) Timeout)
  = [Fetch (GET_customers 1 10 "")].
Proof.
  assert (Hr : reachable (fst (step Sample.loaded (GoToPage 3))))
    by (do 2 apply reachable_step; apply reachable_mount).
  destruct (timer_fire_refetch (fst (step Sample.loaded (GoToPage 3)))
              {| delay := 500; captured := "" |} Hr eq_refl) as [Hyes _].
  apply Hyes. left. discriminate.
Defined.

(** X5.  In every state a mounted controller can reach, the committed
    search term lags the live one only while a timer is pending: with
    no timer pending the two are equal.  In particular, whenever the
    guard of the fetch effect is false, a timer is pending. *)
Theorem committed_term_catches_up (w : World) :
  reachable w ->
  (timer w = None -> debouncedSearchTerm (crm w) = searchTerm (crm w)) /\
  (fetchTrigger (crm w) = false -> timer w <> None).
Proof.
  intros Hw.
  assert (Hinv : timer w = None -> debouncedSearchTerm (crm w) = searchTerm (crm w)).
  { induction Hw as [|w e Hw IH].
    - discriminate.
    - pose proof (timer_holds_searchTerm w Hw) as Hcap.
      destruct e; unfold step, commit; hook.
      1: { unfold debounce_deps_changed; hook.
           destruct (searchTerm (crm w) =? value)%string eqn:Hv; hook; branches; cbn.
           all: try discriminate.
           all: apply String.eqb_eq in Hv; rewrite <- Hv; exact IH. }
      1: { destruct (timer w) as [t|] eqn:Ht; hook.
           - rewrite (Hcap t eq_refl). hook. branches; cbn; intros; reflexivity.
           - branches; cbn; intros _; apply IH; reflexivity. }
      all: branches; cbn; first [ exact IH | discriminate ]. }
  split; [exact Hinv|].
  intros Hg Ht. apply fetchTrigger_false in Hg. destruct Hg as [Hd Hs].
  rewrite (Hinv Ht) in Hd. contradiction.
Qed.

(** After a keystroke the guard is false and the timer is pending; once
    the timer has fired the terms agree. *)
Lemma committed_term_catches_up_witness :
  timer (fst (step Sample.loaded (SetSearchTerm "a"))) <> None /\
  debouncedSearchTerm (crm (fst (run Sample.loaded [SetSearchTerm "a"; Timeout])))
  = searchTerm (crm (fst (run Sample.loaded [SetSearchTerm "a"; Timeout]))).
Proof.
  split.
  - apply (committed_term_catches_up (fst (step Sample.loaded (SetSearchTerm "a")))).
    + do 2 apply reachable_step. apply reachable_mount.
    + reflexivity.
  - apply (committed_term_catches_up
             (fst (run Sample.loaded [SetSearchTerm "a"; Timeout]))).
    + apply reachable_run. apply reachable_step. apply reachable_mount.
    + reflexivity.
Defined.

Lemma timeout_without_timer (w : World) :
  timer w = None -> step w Timeout = (w, []).
Proof.
  intros Ht. apply step_quiet; try reflexivity. hook. now rewrite Ht.
Qed.

Lemma timeout_spends_timer (w : World) : timer (fst (step w Timeout)) = None.
Proof.
  destruct (timer w) as [t|] eqn:Ht.
  - unfold step, commit, debounce_deps_changed. hook. rewrite Ht. hook.
    rewrite String.eqb_refl. hook. branches; reflexivity.
  - now rewrite (timeout_without_timer w Ht).
Qed.

(** X6.  The debounce timer fires once: right after it has fired, a
    second firing finds no timer and does nothing, whatever the state. *)
Theorem timer_fires_once (w : World) :
  step (fst (step w Timeout)) Timeout = (fst (step w Timeout), []).
Proof. apply timeout_without_timer. apply timeout_spends_timer. Qed.

(* ================================================================== *)
(** * The membership flag *)
(* ================================================================== *)

Lemma grant_step_start (w : World) (customerId barcode : string) :
  step w (HandleGrantMembership customerId barcode) =
  (upd_inflight (fun l => l ++ [K_handleGrantMembership customerId])%list
     (upd_crm (upd_isMembershipUpdating (fun _ => true)) w),
   [Fetch (POST_toggle_membership customerId true barcode)]).
Proof. apply step_quiet; reflexivity. Qed.

Lemma grant_step_rejected (w : World) (k : nat) (customerId e : string) :
  nth_error (inflight w) k = Some (K_handleGrantMembership customerId) ->
  step w (Settle k (Rejected e)) =
  (upd_crm (upd_isMembershipUpdating (fun _ => false))
     (upd_inflight (remove_nth k) w),
   [Toast_error e]).
Proof.
  intros Hk. apply step_quiet; try reflexivity. hook. rewrite Hk. reflexivity.
Qed.

(** X7.  [grantMembership] raises [isMembershipUpdating] and sends one
    POST with [isMembership] true and the barcode; whatever reply comes
    (success, failure, rejected promise), the flag is false afterwards.
    When the grant failed (promise rejected, [success] false or no
    customer in the body), [selectedCustomer], the list, [panelKey] and
    [pageError] are untouched and exactly one error toast is shown, with
    the server's message or 'Failed to grant membership.'. *)
Theorem membership_flag_and_failure :
  (forall (w : World) (customerId barcode : string),
      isMembershipUpdating
        (crm (fst (step w (HandleGrantMembership customerId barcode)))) = true /\
      snd (step w (HandleGrantMembership customerId barcode))
      = [Fetch (POST_toggle_membership customerId true barcode)]) /\
  (forall (w : World) (k : nat) (customerId : string) (reply : Reply),
      nth_error (inflight w) k = Some (K_handleGrantMembership customerId) ->
      isMembershipUpdating (crm (fst (step w (Settle k reply)))) = false) /\
  (forall (w : World) (k : nat) (customerId : string) (reply : Reply),
      nth_error (inflight w) k = Some (K_handleGrantMembership customerId) ->
      grant_failed reply ->
      let w' := fst (step w (Settle k reply)) in
      selectedCustomer (crm w') = selectedCustomer (crm w) /\
      customers (crm w') = customers (crm w) /\
      panelKey (crm w') = panelKey (crm w) /\
      pageError (crm w') = pageError (crm w) /\
      snd (step w (Settle k reply))
      = [Toast_error (failure_message "Failed to grant membership." reply)]).
Proof.
  split; [|split].
  - intros w customerId barcode. rewrite grant_step_start. split; reflexivity.
  - intros w k customerId [e | ok result] Hk.
    + now rewrite (grant_step_rejected w k customerId e Hk).
    + destruct (Api.success result) eqn:Hs; [destruct (Api.customer result) eqn:Hc|].
      * now rewrite (grant_step_eq w k customerId ok result c Hk Hs Hc).
      * now rewrite (grant_step_failed w k customerId ok result Hk (or_intror Hc)).
      * now rewrite (grant_step_failed w k customerId ok result Hk (or_introl Hs)).
  - intros w k customerId [e | ok result] Hk Hf; cbn [grant_failed] in Hf.
    + rewrite (grant_step_rejected w k customerId e Hk). cbn. repeat split.
    + rewrite (grant_step_failed w k customerId ok result Hk Hf). cbn. repeat split.
Qed.

(** A grant that the server refuses without a message. *)
Lemma membership_flag_and_failure_witness :
  isMembershipUpdating (crm Sample.granting) = true /\
  isMembershipUpdating
    (crm (fst (step Sample.granting (Settle 0 (Json true Sample.refused))))) = false /\
  snd (step Sample.granting (Settle 0 (Json true Sample.refused)))
  = [Toast_error "Failed to grant membership."].
Proof.
  destruct membership_flag_and_failure as [_ [Hflag Hfail]].
  split; [reflexivity | split].
  - apply (Hflag Sample.granting 0%nat "a" (Json true Sample.refused) eq_refl).
  - apply (Hfail Sample.granting 0%nat "a" (Json true Sample.refused) eq_refl).
    left. reflexivity.
Defined.

(* ================================================================== *)
(** * What the controller sends *)
(* ================================================================== *)

(** X8.  Every list request asks for 10 rows; and, except for the
    refresh that follows a deactivation (which is sent from the render
    the deactivation was called in), every list request an event sends
    is for the page and the committed search term that the controller
    holds after that event. *)
Theorem list_requests_follow_state (w : World) (e : Event)
    (page limit : Z) (search : string) :
  In (Fetch (GET_customers page limit search)) (snd (step w e)) ->
  limit = 10 /\
  (~ settles_deactivation w e ->
   page = currentPage (pagination (crm (fst (step w e)))) /\
   search = debouncedSearchTerm (crm (fst (step w e)))).
Proof.
  destruct e; unfold step, commit, settles_deactivation; hook.
  12: destruct (nth_error (inflight w) k) as [[| | r | customerId]|] eqn:Hk; hook.
  all: branches; cbn.
  all: intros Hin; repeat (destruct Hin as [Hin | Hin]; try discriminate Hin);
       try contradiction.
  all: injection Hin as <- <- <-; split; [reflexivity|]; intros Hn;
       first [ split; reflexivity | exfalso; apply Hn; eauto ].
Qed.

(** The request sent when the user moves to page 2. *)
Lemma list_requests_follow_state_witness :
  2 = currentPage (pagination (crm (fst (step Sample.loaded (GoToPage 2))))) /\
  "" = debouncedSearchTerm (crm (fst (step Sample.loaded (GoToPage 2)))).
Proof.
  destruct (list_requests_follow_state Sample.loaded (GoToPage 2) 2 10 "")
    as [_ Hsync].
  - left. reflexivity.
  - apply Hsync. exact (fun x => x).
Defined.

(** Closes a case in which the fetch effect would have run although the
    handler changed none of its dependencies. *)
Ltac deps_kept :=
  match goal with
  | H : fetch_deps_changed _ _ = true |- _ =>
      unfold fetch_deps_changed in H; hook;
      rewrite Z.eqb_refl, String.eqb_refl in H; discriminate H
  end.

(** X9.  No event makes the controller send more than one HTTP
    request. *)
Theorem one_request_per_event (w : World) (e : Event) :
  (List.length (filter is_request (snd (step w e))) <= 1)%nat.
Proof.
  destruct e; unfold step, commit; hook; branches; cbn; first [ lia | deps_kept ].
Qed.

Lemma refreshData_step (w : World) :
  step w RefreshData =
  (upd_inflight (fun l => l ++ [K_fetchCustomers])%list
     (upd_crm (upd_pageError (fun _ => None))
        (upd_crm (upd_isLoading (fun _ => true)) w)),
   [Fetch (GET_customers (currentPage (pagination (crm w))) 10
                         (debouncedSearchTerm (crm w)))]).
Proof. apply step_quiet; reflexivity. Qed.

(** X10.  [refreshData] is not subject to the guard of the fetch
    effect: also while a keystroke is not committed yet (committed term
    empty, live term not), it sends the list request for the current
    page and the committed term, where moving to another page would
    send nothing. *)
Theorem refreshData_ignores_guard (w : World) (n : Z) :
  debouncedSearchTerm (crm w) = "" ->
  searchTerm (crm w) <> "" ->
  1 <= n <= totalPages (pagination (crm w)) ->
  snd (step w RefreshData)
  = [Fetch (GET_customers (currentPage (pagination (crm w))) 10 "")] /\
  snd (step w (GoToPage n)) = [].
Proof.
  intros Hd Hs Hn. rewrite refreshData_step, (goToPage_step w n Hn). cbn [snd].
  rewrite Hd. split; [reflexivity|].
  assert (Hg : fetchTrigger (crm w) = false) by (apply fetchTrigger_false; auto).
  rewrite Hg, andb_false_r. reflexivity.
Qed.

(** Right after a keystroke on a loaded list. *)
Lemma refreshData_ignores_guard_witness :
  snd (step (fst (step Sample.loaded (SetSearchTerm "a"))) RefreshData)
  = [Fetch (GET_customers 1 10 "")] /\
  snd (step (fst (step Sample.loaded (SetSearchTerm "a"))) (GoToPage 2)) = [].
Proof.
  apply (refreshData_ignores_guard (fst (step Sample.loaded (SetSearchTerm "a"))) 2).
  - reflexivity.
  - discriminate.
  - cbn. lia.
Defined.

(* ================================================================== *)
(** * What only a list reply changes *)
(* ================================================================== *)

(** X11.  Only the reply to a list request changes [totalPages] and
    [totalCustomers]; and no other event takes the current page out of
    range: if [1 <= currentPage <= totalPages] before the event, it
    holds after it. *)
Theorem pagination_kept_by_other_events (w : World) (e : Event) :
  ~ settles_list_fetch w e ->
  let p := pagination (crm w) in
  let p' := pagination (crm (fst (step w e))) in
  totalPages p' = totalPages p /\
  totalCustomers p' = totalCustomers p /\
  (page_in_range p -> page_in_range p').
Proof.
  intros Hn. cbv zeta. unfold page_in_range.
  destruct e; unfold step, commit, settles_list_fetch in *; hook.
  3: { destruct ((1 <=? pageNumber) && (pageNumber <=? totalPages (pagination (crm w))))
         eqn:Hr; hook; branches; cbn; repeat split; intros;
         try (apply andb_true_iff in Hr; destruct Hr as [H1 H2];
              apply Z.leb_le in H1, H2); lia. }
  all: branches; cbn; try contradiction; repeat split; intros; lia.
Qed.

(** The timer firing on page 3 of 3. *)
Lemma pagination_kept_by_other_events_witness :
  let w := fst (step Sample.loaded (GoToPage 3)) in
  totalPages (pagination (crm (fst (step w Timeout)))) = 3 /\
  page_in_range (pagination (crm (fst (step w Timeout)))).
Proof.
  destruct (pagination_kept_by_other_events
              (fst (step Sample.loaded (GoToPage 3))) Timeout (fun x => x))
    as [Ht [_ Hr]].
  cbv zeta. split; [exact Ht|]. apply Hr. unfold page_in_range. cbn. lia.
Defined.

(** X12.  Only the reply to a list request changes the number of rows
    of the list: in particular a deactivation, confirmed or answered,
    removes no row locally, and a membership grant replaces rows in
    place. *)
Theorem rows_kept_by_other_events (w : World) (e : Event) :
  ~ settles_list_fetch w e ->
  List.length (customers (crm (fst (step w e)))) = List.length (customers (crm w)).
Proof.
  intros Hn.
  destruct e; unfold step, commit, settles_list_fetch in *; hook.
  all: branches; cbn; rewrite ?length_map; first [ reflexivity | contradiction ].
Qed.

(** The reply to a deactivation that succeeded. *)
Lemma rows_kept_by_other_events_witness :
  let w := fst (run Sample.loaded [HandleDeleteCustomer "a" "Alice" true]) in
  List.length (customers (crm (fst (step w (Settle 0 (Json true Sample.done)))))) = 1%nat.
Proof.
  cbv zeta.
  rewrite (rows_kept_by_other_events
             (fst (run Sample.loaded [HandleDeleteCustomer "a" "Alice" true]))
             (Settle 0 (Json true Sample.done))).
  - reflexivity.
  - cbn. discriminate.
Defined.

(* ================================================================== *)
(** * The panel *)
(* ================================================================== *)

(** X13.  Clicking twice the row that the open panel shows closes the
    panel and opens it again: the first click only closes it (the
    selection is kept), so the second finds it closed, adds one to
    [panelKey], clears the selection and sends a fresh detail request;
    the request is the only thing sent. *)
Theorem toggle_then_reopen (w : World) (c : CrmCustomer) :
  shows (crm w) c ->
  let w' := fst (run w [HandleViewCustomerDetails c; HandleViewCustomerDetails c]) in
  isDetailPanelOpen (crm w') = true /\
  panelKey (crm w') = panelKey (crm w) + 1 /\
  selectedCustomer (crm w') = None /\
  snd (run w [HandleViewCustomerDetails c; HandleViewCustomerDetails c])
  = [Fetch (GET_customer (_id c))].
Proof.
  intros Hs. cbv zeta. cbn [run].
  rewrite (view_step_toggle w c Hs).
  rewrite view_step_open.
  - cbn. repeat split.
  - cbn. intros [Ho _]. discriminate Ho.
Qed.

(** Two clicks on the row that the panel shows. *)
Lemma toggle_then_reopen_witness :
  let es := [HandleViewCustomerDetails Sample.alice;
             HandleViewCustomerDetails Sample.alice] in
  isDetailPanelOpen (crm (fst (run Sample.viewing es))) = true /\
  panelKey (crm (fst (run Sample.viewing es))) = 2 /\
  snd (run Sample.viewing es) = [Fetch (GET_customer "a")].
Proof.
  destruct (toggle_then_reopen Sample.viewing Sample.alice) as [Ho [Hk [_ Hout]]].
  - split; [reflexivity|]. exists Sample.alice_member. split; reflexivity.
  - cbv zeta. split; [exact Ho | split; [exact Hk | exact Hout]].
Defined.

(** X14.  No reply, and no event other than [viewDetails] and the
    setter [setIsDetailPanelOpen], opens or closes the panel; and
    [selectedCustomer] is changed only by [viewDetails], by the reply
    to a detail request and by the reply to a membership grant. *)
Theorem panel_cells_frame (w : World) (e : Event) :
  (isDetailPanelOpen (crm (fst (step w e))) <> isDetailPanelOpen (crm w) ->
   match e with
   | HandleViewCustomerDetails _ | SetIsDetailPanelOpen _ => True
   | _ => False
   end) /\
  (selectedCustomer (crm (fst (step w e))) <> selectedCustomer (crm w) ->
   match e with
   | HandleViewCustomerDetails _ => True
   | Settle k _ =>
       nth_error (inflight w) k = Some K_handleViewCustomerDetails \/
       exists customerId,
         nth_error (inflight w) k = Some (K_handleGrantMembership customerId)
   | _ => False
   end).
Proof.
  destruct e; unfold step, commit; hook.
  12: destruct (nth_error (inflight w) k) as [[| | r | customerId]|] eqn:Hk; hook.
  all: branches; cbn; split; intros H;
       first [ exact I | now contradiction H | now left | right; eauto ].
Qed.

(** The reply to a list request leaves the panel alone. *)
Lemma panel_cells_frame_witness :
  isDetailPanelOpen (crm (fst (step Sample.opening (Settle 0 (Json true Sample.list_ok)))))
  = isDetailPanelOpen (crm Sample.opening).
Proof.
  destruct (panel_cells_frame Sample.opening (Settle 0 (Json true Sample.list_ok)))
    as [Hopen _].
  destruct (Bool.bool_dec
              (isDetailPanelOpen
                 (crm (fst (step Sample.opening (Settle 0 (Json true Sample.list_ok))))))
              (isDetailPanelOpen (crm Sample.opening))) as [Heq | Hne].
  - exact Heq.
  - destruct (Hopen Hne).
Defined.

(* ================================================================== *)
(** * Error messages *)
(* ================================================================== *)



(* ================================================================== *)
(** * The refresh after a deactivation *)
(* ================================================================== *)

(** X16.  The refresh that follows a successful deactivation is sent
    from the render in which [deactivate] was called: if the user moves
    to another page while the DELETE is in flight, the reply still
    refetches the page (and the committed term) the controller was on
    when [deactivate] was called, not the page it is on by then. *)
Theorem deactivation_refreshes_page_of_call
    (w : World) (customerId customerName : string) (n : Z) (data : Api.Body) :
  1 <= n <= totalPages (pagination (crm w)) ->
  Api.success data = true ->
  let moved := fst (run w [HandleDeleteCustomer customerId customerName true;
                           GoToPage n]) in
  currentPage (pagination (crm moved)) = n /\
  snd (step moved (Settle (List.length (inflight w)) (Json true data)))
  = [Toast_success "Customer deactivated successfully.";
     Fetch (GET_customers (currentPage (pagination (crm w))) 10
                          (debouncedSearchTerm (crm w)))].
Proof.
  intros Hn Hs. cbv zeta. cbn [run].
  rewrite delete_step_confirmed. cbn [fst snd].
  rewrite goToPage_step by exact Hn. cbn [crm upd_inflight].
  destruct (negb (currentPage (pagination (crm w)) =? n) && fetchTrigger (crm w));
    cbn [fst snd app].
  - split; [reflexivity|].
    rewrite (delete_settle_ok _ (List.length (inflight w)) (crm w) data);
      [reflexivity | | exact Hs].
    cbn [inflight upd_inflight upd_crm].
    rewrite nth_error_app1 by (rewrite length_app; cbn; lia).
    apply nth_error_last.
  - split; [reflexivity|].
    rewrite (delete_settle_ok _ (List.length (inflight w)) (crm w) data);
      [reflexivity | | exact Hs].
    cbn [inflight upd_inflight upd_crm]. apply nth_error_last.
Qed.

(** On page 1 of 3 the user confirms a deactivation, moves to page 2,
    and the DELETE is answered. *)
Lemma deactivation_refreshes_page_of_call_witness :
  let moved := fst (run Sample.loaded [HandleDeleteCustomer "a" "Alice" true;
                                       GoToPage 2]) in
  currentPage (pagination (crm moved)) = 2 /\
  snd (step moved (Settle 0 (Json true Sample.done)))
  = [Toast_success "Customer deactivated successfully.";
     Fetch (GET_customers 1 10 "")].
Proof.
  apply (deactivation_refreshes_page_of_call Sample.loaded "a" "Alice" 2 Sample.done).
  - cbn. lia.
  - reflexivity.
Defined.
